(** * Swaad Station coupon service (app.py): model and verified properties

    The Flask application is embedded as functions over an explicit
    database state.  The two MongoDB collections are finite maps keyed by
    [_id]; every database call of the source is a computation in a small
    state-and-exception monad, and every route handler wraps its body in
    the [try ... except Exception] of the source.

    What is taken from the environment rather than computed:
    - [MASTER_IP] (read from the process environment at start-up),
    - the value of [uuid.uuid4()] and of each [datetime.now()] call,
      passed to the handler that makes the call.

    Conventions:
    - a [datetime] is a number of microseconds, [timedelta(days=d)] is
      [d * 86400000000];
    - the store keeps BSON: a datetime is held to the millisecond
      ([bson_datetime]), and an integer must fit in 64 bits, or the driver
      raises [OverflowError] before anything is sent;
    - the [limit] sent in the JSON body of [/admin/reset_limit] is a
      Python integer ([Z]); a limit that is not an integer is outside
      this model;
    - the server is one whose [init_mongodb] connected (the handlers are
      never run against the [None] collections of a failed connection). *)

From Stdlib Require Import ZArith String DecimalString.
From stdpp Require Import gmap strings list fin_maps.

Set Warnings "-register-all".

Local Open Scope string_scope.
Local Open Scope Z_scope.

(** ** Documents *)

(** A document of [db.coupons]; its [_id] is the key it is stored under. *)
Record Coupon := mkCoupon {
  valid : bool;
  expiry_date : Z;
  discount : string;
  used : bool;
  generating_ip : string;
  generated_by_master : bool;
  created_at : Z
}.

(** A document of [db.config]. *)
Record Config := mkConfig {
  limit : Z;
  current_count : Z
}.

Record DB := mkDB {
  coupons_collection : gmap string Coupon;
  config_collection : gmap string Config
}.

(** What BSON keeps of a datetime: the whole milliseconds. *)
Definition bson_datetime (t : Z) : Z := t / 1000 * 1000.

(** A coupon document as the store holds it once encoded. *)
Definition bson_coupon (c : Coupon) : Coupon :=
  mkCoupon (valid c) (bson_datetime (expiry_date c)) (discount c) (used c)
           (generating_ip c) (generated_by_master c)
           (bson_datetime (created_at c)).

(** The integers BSON can hold: signed, 64 bits. *)
Definition fits_int64 (n : Z) : bool :=
  (- 2 ^ 63 <=? n) && (n <=? 2 ^ 63 - 1).

(** [{'$set': {'used': True}}] *)
Definition set_used (c : Coupon) : Coupon :=
  mkCoupon (valid c) (expiry_date c) (discount c) true
           (generating_ip c) (generated_by_master c) (created_at c).

(** [{'$inc': {'current_count': 1}}] *)
Definition inc_current_count (c : Config) : Config :=
  mkConfig (limit c) (current_count c + 1).

(** [{'$set': {'limit': new_limit, 'current_count': 0}}] *)
Definition set_limit (new_limit : Z) (c : Config) : Config :=
  mkConfig new_limit 0.

(** ** Exceptions and the handler monad *)

Inductive Exception :=
  | TypeError            (* subscripting the [None] of a failed [find_one] *)
  | DuplicateKeyError (key : string)  (* [insert_one] on an [_id] in use *)
  | NoJsonBody           (* [request.json] on a body that is not JSON *)
  | OverflowError.       (* encoding an integer of more than 8 bytes *)

(** A computation reads and writes the database and may raise; writes made
    before a raise stay (nothing is rolled back). *)
Definition M (A : Type) : Type := DB → (Exception + A) * DB.

Definition raise {A} (e : Exception) : M A := λ db, (inl e, db).

#[global] Instance M_ret : MRet M := λ A a db, (inr a, db).

#[global] Instance M_bind : MBind M := λ A B f m db,
  match m db with
  | (inr a, db') => f a db'
  | (inl e, db') => (inl e, db')
  end.

(** [try: body except Exception as e: handler(e)] *)
Definition try_except {A} (body : M A) (handler : Exception → A) : DB → A * DB :=
  λ db, match body db with
        | (inr a, db') => (a, db')
        | (inl e, db') => (handler e, db')
        end.

(** ** The pymongo calls the application makes *)

Definition find_one_coupon (id : string) : M (option Coupon) :=
  λ db, (inr (coupons_collection db !! id), db).

(** [coupons_collection.find_one({'generating_ip': ip})] *)
Definition find_one_coupon_by_ip (ip : string) : M (option (string * Coupon)) :=
  λ db, (inr (List.find (λ kv, bool_decide (generating_ip kv.2 = ip))
                        (map_to_list (coupons_collection db))), db).

Definition find_one_config (id : string) : M (option Config) :=
  λ db, (inr (config_collection db !! id), db).

Definition insert_one_coupon (id : string) (c : Coupon) : M unit :=
  λ db, match coupons_collection db !! id with
        | Some _ => (inl (DuplicateKeyError id), db)
        | None => (inr tt, mkDB (<[id := bson_coupon c]> (coupons_collection db))
                                (config_collection db))
        end.

Definition insert_one_config (id : string) (c : Config) : M unit :=
  λ db, match config_collection db !! id with
        | Some _ => (inl (DuplicateKeyError id), db)
        | None => (inr tt, mkDB (coupons_collection db)
                                (<[id := c]> (config_collection db)))
        end.

(** [update_one] without upsert: nothing happens when no document matches. *)
Definition update_one_coupon (id : string) (f : Coupon → Coupon) : M unit :=
  λ db, (inr tt, mkDB (alter f id (coupons_collection db)) (config_collection db)).

Definition update_one_config (id : string) (f : Config → Config) : M unit :=
  λ db, (inr tt, mkDB (coupons_collection db) (alter f id (config_collection db))).

(** The driver encodes the integers of an update document before it
    sends the update. *)
Definition encode_int (n : Z) : M unit :=
  if fits_int64 n then mret tt else raise OverflowError.

(** [count_documents(filter)] and [len(distinct('generating_ip'))] *)
Definition count_documents (P : Coupon → bool) : M Z :=
  λ db, (inr (Z.of_nat (List.length (List.filter (λ kv : string * Coupon, P kv.2)
                                       (map_to_list (coupons_collection db))))), db).

Definition distinct_generating_ip : M (gset string) :=
  λ db, (inr (list_to_set ((λ kv : string * Coupon, generating_ip kv.2)
                             <$> map_to_list (coupons_collection db))), db).

(** [config['limit']] and the like on the result of [find_one] *)
Definition subscript {A B} (doc : option A) (field : A → B) : M B :=
  match doc with
  | Some d => mret (field d)
  | None => raise TypeError
  end.

(** ** Start-up *)

Definition init_mongodb : M unit :=
  cfg ← find_one_config "coupon_limit";
  match cfg with
  | Some _ => mret tt
  | None => insert_one_config "coupon_limit" (mkConfig 150 0)
  end.

(** ** Requests and responses *)

(** What the handlers read of a Flask request.  [json] is [None] when the
    body is not JSON; otherwise it is the JSON object, here with integer
    members. *)
Record Request := mkRequest {
  cookies : gmap string string;
  remote_addr : string;
  json : option (gmap string Z)
}.

Inductive Image :=
  | QRCode (data : string).

(** The page drawn by [create_coupon_pdf]: the fixed texts are constants of
    the source, the three variable parts are kept. *)
Record PDF := mkPDF {
  pdf_coupon_id : string;
  pdf_qr : Image;
  pdf_valid_until : Z
}.

Inductive JValue :=
  | JBool (b : bool)
  | JInt (n : Z)
  | JStr (s : string)
  | JObj (members : list (string * JValue))
  | JExc (e : Exception).   (* the text [str(e)] *)

Inductive Body :=
  | Json (members : list (string * JValue))
  | File (content : PDF) (mimetype : string) (as_attachment : bool)
         (download_name : string).

Record Cookie := mkCookie {
  cookie_key : string;
  cookie_value : string;
  max_age : Z
}.

Record Response := mkResponse {
  status : Z;
  body : Body;
  set_cookies : list Cookie
}.

(** [jsonify(d)] (status 200) and [jsonify(d), code] *)
Definition jsonify (members : list (string * JValue)) : Response :=
  mkResponse 200 (Json members) [].

Definition with_status (r : Response) (code : Z) : Response :=
  mkResponse code (body r) (set_cookies r).

Definition send_file (content : PDF) (mimetype : string) (as_attachment : bool)
    (download_name : string) : Response :=
  mkResponse 200 (File content mimetype as_attachment download_name) [].

(** [make_response(r)] of a value that is a response already *)
Definition make_response (r : Response) : Response := r.

Definition set_cookie (r : Response) (key value : string) (age : Z) : Response :=
  mkResponse (status r) (body r) (set_cookies r ++ [mkCookie key value age]).

(** The value a JSON response holds under [key]. *)
Definition json_member (key : string) (r : Response) : option JValue :=
  match body r with
  | Json members =>
      snd <$> List.find (λ kv : string * JValue, bool_decide (kv.1 = key)) members
  | File _ _ _ _ => None
  end.

(** Truth value of [d.get(key)] for a dict of strings: a missing key gives
    [None], and the empty string is false as well. *)
Definition truthy (v : option string) : bool :=
  match v with
  | None => false
  | Some EmptyString => false
  | Some (String _ _) => true
  end.

(** [str(n)] for an integer *)
Definition str_int (n : Z) : string := NilZero.string_of_int (Z.to_int n).

Definition timedelta (days : Z) : Z := days * 86400000000.

(** ** Rendering *)

Definition generate_qr_code (data : string) : Image := QRCode data.

Definition create_coupon_pdf (coupon_id : string) (qr_img_buffer : Image)
    (expiry_date : Z) : PDF :=
  mkPDF coupon_id qr_img_buffer expiry_date.

Definition error_500 (e : Exception) : Response :=
  with_status (jsonify [("status", JStr "error"); ("message", JExc e)]) 500.

Section App.

(** [os.getenv('MASTER_IP', '192.168.137.1')] *)
Variable MASTER_IP : string.

(** ** Eligibility checks *)

Definition is_ip_allowed (ip : string) : M bool :=
  if bool_decide (ip = MASTER_IP) then mret true
  else found ← find_one_coupon_by_ip ip;
       mret (negb (bool_decide (is_Some found))).

Definition can_generate_coupon : M bool :=
  config ← find_one_config "coupon_limit";
  count ← subscript config current_count;
  lim ← subscript config limit;
  mret (count <? lim).

Definition increment_coupon_count : M unit :=
  update_one_config "coupon_limit" inc_current_count.

(** ** Route handlers *)

Definition test_db : DB → Response * DB :=
  try_except
    (config ← find_one_config "coupon_limit";
     lim ← subscript config limit;
     count ← subscript config current_count;
     mret (jsonify [("status", JStr "success");
                    ("data", JObj [("limit", JInt lim);
                                   ("current_count", JInt count)])]))
    (λ e, jsonify [("status", JStr "error"); ("message", JExc e)]).

(** The [coupon_data] dict of [generate_coupon] (its [_id] is the key it
    is inserted under); [now_expiry] and [now_created] are the two
    [datetime.now()] readings. *)
Definition coupon_data (request : Request) (now_expiry now_created : Z) : Coupon :=
  {| valid := true;
     expiry_date := now_expiry + timedelta 1;
     discount := "10%";
     used := false;
     generating_ip := remote_addr request;
     generated_by_master := bool_decide (remote_addr request = MASTER_IP);
     created_at := now_created |}.

Definition generate_coupon_body (request : Request) (uuid4 : string)
    (now_expiry now_created : Z) : M Response :=
  if truthy (cookies request !! "coupon_generated") then
    mret (with_status (jsonify
      [("error", JStr "Coupon generation not allowed");
       ("message", JStr "You have already generated a coupon. Only one coupon per device is allowed.")])
      403)
  else
    let client_ip := remote_addr request in
    can ← can_generate_coupon;
    if negb can && negb (bool_decide (client_ip = MASTER_IP)) then
      mret (with_status (jsonify
        [("error", JStr "Coupon generation not allowed");
         ("message", JStr "Coupon limit reached. Please try again later.")])
        403)
    else
      let coupon_id := substring 0%nat 8%nat uuid4 in
      let expiry_date := now_expiry + timedelta 1 in
      _ ← insert_one_coupon coupon_id (coupon_data request now_expiry now_created);
      _ ← (if negb (bool_decide (client_ip = MASTER_IP))
           then increment_coupon_count else mret tt);
      let qr_buffer := generate_qr_code coupon_id in
      let pdf_buffer := create_coupon_pdf coupon_id qr_buffer expiry_date in
      let response :=
        make_response
          (send_file pdf_buffer "application/pdf" true
                     ("swaad_station_coupon_" +:+ coupon_id +:+ ".pdf")) in
      mret (set_cookie response "coupon_generated" "true" (24 * 60 * 60)).

Definition generate_coupon (request : Request) (uuid4 : string)
    (now_expiry now_created : Z) : DB → Response * DB :=
  try_except (generate_coupon_body request uuid4 now_expiry now_created) error_500.

Definition validate_coupon_body (coupon_id : string) (now : Z) : M Response :=
  coupon ← find_one_coupon coupon_id;
  match coupon with
  | None =>
      mret (jsonify [("valid", JBool false); ("message", JStr "Coupon not found")])
  | Some coupon =>
      if used coupon then
        mret (jsonify [("valid", JBool false); ("message", JStr "Coupon already used")])
      else if now >? expiry_date coupon then
        mret (jsonify [("valid", JBool false); ("message", JStr "Coupon expired")])
      else
        _ ← update_one_coupon coupon_id set_used;
        mret (jsonify
          [("valid", JBool true);
           ("message", JStr "Valid coupon - 10% discount applied at Swaad Station");
           ("discount", JStr (discount coupon))])
  end.

Definition validate_coupon (coupon_id : string) (now : Z) : DB → Response * DB :=
  try_except (validate_coupon_body coupon_id now) error_500.

Definition unauthorized : Response :=
  with_status (jsonify [("error", JStr "Unauthorized")]) 403.

Definition reset_limit_body (request : Request) : M Response :=
  if negb (bool_decide (remote_addr request = MASTER_IP)) then mret unauthorized
  else
    match json request with
    | None => raise NoJsonBody
    | Some payload =>
        let new_limit := default 150 (payload !! "limit") in
        _ ← encode_int new_limit;
        _ ← update_one_config "coupon_limit" (set_limit new_limit);
        mret (jsonify
          [("message", JStr ("Coupon limit reset to " +:+ str_int new_limit));
           ("new_limit", JInt new_limit)])
    end.

Definition reset_limit (request : Request) : DB → Response * DB :=
  try_except (reset_limit_body request) error_500.

Definition admin_stats_body (request : Request) : M Response :=
  if negb (bool_decide (remote_addr request = MASTER_IP)) then mret unauthorized
  else
    config ← find_one_config "coupon_limit";
    total_coupons ← count_documents (λ _, true);
    master_generated ← count_documents generated_by_master;
    used_coupons ← count_documents used;
    ips ← distinct_generating_ip;
    let unique_users := Z.of_nat (size ips) in
    lim ← subscript config limit;
    lim' ← subscript config limit;
    count ← subscript config current_count;
    mret (jsonify
      [("total_coupons_generated", JInt total_coupons);
       ("master_generated_coupons", JInt master_generated);
       ("user_generated_coupons", JInt (total_coupons - master_generated));
       ("used_coupons", JInt used_coupons);
       ("unique_users", JInt unique_users);
       ("current_limit", JInt lim);
       ("remaining_coupons", JInt (lim' - count))]).

Definition admin_stats (request : Request) : DB → Response * DB :=
  try_except (admin_stats_body request) error_500.

(** ** The service as a transition system *)

Inductive Call :=
  | TestDb
  | GenerateCoupon (request : Request) (uuid4 : string) (now_expiry now_created : Z)
  | ValidateCoupon (coupon_id : string) (now : Z)
  | ResetLimit (request : Request)
  | AdminStats (request : Request).

Definition handle (c : Call) : DB → Response * DB :=
  match c with
  | TestDb => test_db
  | GenerateCoupon request uuid4 now_expiry now_created =>
      generate_coupon request uuid4 now_expiry now_created
  | ValidateCoupon coupon_id now => validate_coupon coupon_id now
  | ResetLimit request => reset_limit request
  | AdminStats request => admin_stats request
  end.

Fixpoint run (cs : list Call) (db : DB) : DB :=
  match cs with
  | [] => db
  | c :: cs' => run cs' (handle c db).2
  end.

(** States of a service started on a database that holds no coupon yet. *)
Inductive reachable : DB → Prop :=
  | reach_init (db0 : DB) :
      coupons_collection db0 = ∅ → reachable (init_mongodb db0).2
  | reach_step (c : Call) (db : DB) :
      reachable db → reachable (handle c db).2.

(** The stored [used] flag of a coupon, [None] when there is no such coupon. *)
Definition used_flag (coupon_id : string) (db : DB) : option bool :=
  used <$> coupons_collection db !! coupon_id.

(** Number of calls of a run at which the [used] flag of [coupon_id] goes
    from [False] to [True]. *)
Fixpoint used_flips (coupon_id : string) (cs : list Call) (db : DB) : nat :=
  match cs with
  | [] => 0%nat
  | c :: cs' =>
      let db' := (handle c db).2 in
      ((if bool_decide (used_flag coupon_id db = Some false
                        ∧ used_flag coupon_id db' = Some true)
        then 1 else 0)
       + used_flips coupon_id cs' db')%nat
  end.

End App.

(** Two records that differ at most in the [used] flag. *)
Definition same_but_used (c c' : Coupon) : Prop :=
  valid c' = valid c ∧ expiry_date c' = expiry_date c ∧
  discount c' = discount c ∧ generating_ip c' = generating_ip c ∧
  generated_by_master c' = generated_by_master c ∧
  created_at c' = created_at c.

(** ** Sample data *)

Definition default_master_ip : string := "192.168.137.1".

Definition plain_request (ip : string) : Request := mkRequest ∅ ip None.

Definition cookie_request (ip value : string) : Request :=
  mkRequest {[ "coupon_generated" := value ]} ip None.

Definition json_request (ip : string) (payload : gmap string Z) : Request :=
  mkRequest ∅ ip (Some payload).

Definition fresh_db : DB := (init_mongodb (mkDB ∅ ∅)).2.

Definition uuid_a : string := "abcdef12-3456-4789-8abc-def012345678".
Definition uuid_b : string := "12345678-9abc-4def-8012-3456789abcde".

(** One coupon, issued to 10.0.0.5 at time 1000. *)
Definition db_one_coupon : DB :=
  run default_master_ip
      [GenerateCoupon (plain_request "10.0.0.5") uuid_a 1000 1001]
      fresh_db.

Definition coupon_a : Coupon :=
  mkCoupon true 86400001000 "10%" false "10.0.0.5" false 1000.

(** The quota set to zero by the administrator: the limit is reached. *)
Definition db_limit_reached : DB :=
  run default_master_ip
      [ResetLimit (json_request default_master_ip {[ "limit" := 0 ]})]
      fresh_db.

(** ** Counting stored coupons *)

(** The number [count_documents(filter)] returns, as a function of the
    collection. *)
Definition count_where (P : Coupon → bool) (m : gmap string Coupon) : Z :=
  Z.of_nat (List.length (List.filter (λ kv : string * Coupon, P kv.2)
                           (map_to_list m))).

(** The integer a JSON response holds under [key]. *)
Definition json_int (key : string) (r : Response) : option Z :=
  match json_member key r with
  | Some (JInt n) => Some n
  | _ => None
  end.


(** * Properties *)

(** ** Running the monad *)

Lemma try_except_ret {A} (body : M A) (h : Exception → A) (a : A) (db db' : DB) :
  body db = (inr a, db') → try_except body h db = (a, db').
Proof. intros E. unfold try_except. by rewrite E. Qed.

Lemma try_except_raise {A} (body : M A) (h : Exception → A) e (db db' : DB) :
  body db = (inl e, db') → try_except body h db = (h e, db').
Proof. intros E. unfold try_except. by rewrite E. Qed.

Lemma bind_ret {A B} (m : M A) (f : A → M B) (a : A) (db db' : DB) :
  m db = (inr a, db') → (m ≫= f) db = f a db'.
Proof. intros E. unfold mbind, M_bind. by rewrite E. Qed.

Lemma bind_raise {A B} (m : M A) (f : A → M B) e (db db' : DB) :
  m db = (inl e, db') → (m ≫= f) db = (inl e, db').
Proof. intros E. unfold mbind, M_bind. by rewrite E. Qed.

Ltac run_M :=
  unfold try_except, subscript, find_one_config, find_one_coupon,
    insert_one_coupon, update_one_coupon, update_one_config, encode_int,
    increment_coupon_count, count_documents, distinct_generating_ip,
    raise, mbind, M_bind, mret, M_ret in *; simpl in *.

Lemma can_generate_coupon_run (db : DB) (cfg : Config) :
  config_collection db !! "coupon_limit" = Some cfg →
  can_generate_coupon db = (inr (current_count cfg <? limit cfg), db).
Proof. intros E. unfold can_generate_coupon. run_M. by rewrite E. Qed.

Lemma can_generate_coupon_no_config (db : DB) :
  config_collection db !! "coupon_limit" = None →
  can_generate_coupon db = (inl TypeError, db).
Proof. intros E. unfold can_generate_coupon. run_M. by rewrite E. Qed.

Lemma alter_Some_insert {V} (f : V → V) (k : string) (v : V) (m : gmap string V) :
  m !! k = Some v → alter f k m = <[k := f v]> m.
Proof.
  intros E. apply map_eq. intros j. rewrite lookup_alter, lookup_insert.
  case_decide; subst; [by rewrite E | done].
Qed.

Lemma alter_None_id {V} (f : V → V) (k : string) (m : gmap string V) :
  m !! k = None → alter f k m = m.
Proof.
  intros E. apply map_eq. intros j. rewrite lookup_alter.
  case_decide; subst; [by rewrite E | done].
Qed.

Section Properties.

Variable MASTER_IP : string.

(** ** What each handler does to the database *)

Lemma test_db_db (db : DB) : (test_db db).2 = db.
Proof.
  unfold test_db. run_M.
  by destruct (config_collection db !! "coupon_limit").
Qed.

Lemma admin_stats_db (request : Request) (db : DB) :
  (admin_stats MASTER_IP request db).2 = db.
Proof.
  unfold admin_stats, admin_stats_body. run_M.
  case_bool_decide; simpl; [|done].
  by destruct (config_collection db !! "coupon_limit").
Qed.

Lemma reset_limit_coupons (request : Request) (db : DB) :
  coupons_collection (reset_limit MASTER_IP request db).2 = coupons_collection db.
Proof.
  unfold reset_limit, reset_limit_body. run_M.
  case_bool_decide; simpl; [|done].
  destruct (json request) as [payload|]; simpl; [|done].
  by destruct (fits_int64 _).
Qed.

Lemma generate_coupon_coupons (request : Request) (uuid4 : string)
    (now_expiry now_created : Z) (db : DB) :
  let db' := (generate_coupon MASTER_IP request uuid4 now_expiry now_created db).2 in
  coupons_collection db' = coupons_collection db ∨
  (coupons_collection db !! substring 0 8 uuid4 = None ∧
   coupons_collection db' =
     <[substring 0 8 uuid4 :=
         bson_coupon (coupon_data MASTER_IP request now_expiry now_created)]>
       (coupons_collection db)).
Proof.
  unfold generate_coupon, generate_coupon_body, can_generate_coupon. run_M.
  destruct (truthy _); simpl; [by left|].
  destruct (config_collection db !! "coupon_limit") as [cfg|]; simpl; [|by left].
  destruct (negb (current_count cfg <? limit cfg) && _); simpl; [by left|].
  destruct (coupons_collection db !! substring 0 8 uuid4) eqn:E; simpl; [by left|].
  right. split; [done|]. by case_bool_decide.
Qed.

Lemma validate_coupon_coupons (coupon_id : string) (now : Z) (db : DB) :
  let db' := (validate_coupon coupon_id now db).2 in
  coupons_collection db' = coupons_collection db ∨
  ∃ c, coupons_collection db !! coupon_id = Some c ∧ used c = false ∧
       coupons_collection db' = <[coupon_id := set_used c]> (coupons_collection db).
Proof.
  unfold validate_coupon, validate_coupon_body. run_M.
  destruct (coupons_collection db !! coupon_id) as [c|] eqn:E; [|by left].
  destruct (used c) eqn:U; [by left|].
  destruct (now >? expiry_date c); [by left|]. simpl.
  right. exists c. by rewrite (alter_Some_insert _ _ _ _ E).
Qed.

(** Every call keeps every stored coupon, changed at most by the setting of
    its [used] flag. *)
Lemma handle_keeps_coupon (call : Call) (db : DB) (id : string) (c : Coupon) :
  coupons_collection db !! id = Some c →
  coupons_collection (handle MASTER_IP call db).2 !! id = Some c ∨
  (used c = false ∧
   coupons_collection (handle MASTER_IP call db).2 !! id = Some (set_used c)).
Proof.
  intros E. destruct call as [|rq u n1 n2|cid now|rq|rq]; simpl.
  - rewrite test_db_db. by left.
  - destruct (generate_coupon_coupons rq u n1 n2 db) as [->|[F ->]]; [by left|].
    left. rewrite lookup_insert_ne; [done|]. intros <-. congruence.
  - destruct (validate_coupon_coupons cid now db) as [->|(c' & E' & U & ->)];
      [by left|].
    destruct (decide (cid = id)) as [<-|N].
    + assert (c' = c) as -> by congruence.
      right. by rewrite lookup_insert_eq.
    + left. by rewrite lookup_insert_ne.
  - rewrite reset_limit_coupons. by left.
  - rewrite admin_stats_db. by left.
Qed.

Lemma set_used_same (c : Coupon) : same_but_used c (set_used c).
Proof. by repeat split. Qed.

Lemma same_but_used_refl (c : Coupon) : same_but_used c c.
Proof. by repeat split. Qed.

(** Once set, the flag stays set, whatever is called. *)
Lemma used_flag_stays (call : Call) (db : DB) (id : string) :
  used_flag id db = Some true →
  used_flag id (handle MASTER_IP call db).2 = Some true.
Proof.
  unfold used_flag. intros E.
  destruct (coupons_collection db !! id) as [c|] eqn:L; [|done].
  simpl in E. injection E as U.
  destruct (handle_keeps_coupon call db id c L) as [->|[? ->]]; simpl;
    congruence.
Qed.

Lemma used_flag_stays_run (cs : list Call) (db : DB) (id : string) :
  used_flag id db = Some true →
  used_flag id (run MASTER_IP cs db) = Some true.
Proof.
  revert db. induction cs as [|c cs IH]; intros db E; simpl; [done|].
  apply IH. by apply used_flag_stays.
Qed.

Lemma used_flips_after_used (cs : list Call) (db : DB) (id : string) :
  used_flag id db = Some true → used_flips MASTER_IP id cs db = 0%nat.
Proof.
  revert db. induction cs as [|c cs IH]; intros db E; simpl; [done|].
  rewrite (IH _ (used_flag_stays c db id E)).
  rewrite bool_decide_eq_false_2; [done|]. intros [? _]. congruence.
Qed.

Lemma used_flips_le_1 (cs : list Call) (db : DB) (id : string) :
  (used_flips MASTER_IP id cs db ≤ 1)%nat.
Proof.
  revert db. induction cs as [|c cs IH]; intros db; simpl; [lia|].
  case_bool_decide as F.
  - destruct F as [_ F]. rewrite (used_flips_after_used cs _ id F). lia.
  - specialize (IH (handle MASTER_IP c db).2). lia.
Qed.

Lemma reset_limit_config (request : Request) (db : DB) :
  let db' := (reset_limit MASTER_IP request db).2 in
  config_collection db' = config_collection db ∨
  ∃ n, config_collection db' = alter (set_limit n) "coupon_limit" (config_collection db).
Proof.
  unfold reset_limit, reset_limit_body. run_M.
  case_bool_decide; simpl; [|by left].
  destruct (json request) as [payload|]; simpl; [|by left].
  destruct (fits_int64 _); simpl; [right; eauto | by left].
Qed.

Lemma generate_coupon_config (request : Request) (uuid4 : string)
    (now_expiry now_created : Z) (db : DB) :
  let db' := (generate_coupon MASTER_IP request uuid4 now_expiry now_created db).2 in
  config_collection db' = config_collection db ∨
  (remote_addr request ≠ MASTER_IP ∧
   config_collection db' =
     alter inc_current_count "coupon_limit" (config_collection db)).
Proof.
  unfold generate_coupon, generate_coupon_body, can_generate_coupon. run_M.
  destruct (truthy _); simpl; [by left|].
  destruct (config_collection db !! "coupon_limit") as [cfg|]; simpl; [|by left].
  destruct (negb (current_count cfg <? limit cfg) && _); simpl; [by left|].
  destruct (coupons_collection db !! substring 0 8 uuid4) eqn:E; simpl; [by left|].
  case_bool_decide; simpl; [by left | by right].
Qed.

Lemma validate_coupon_config (coupon_id : string) (now : Z) (db : DB) :
  config_collection (validate_coupon coupon_id now db).2 = config_collection db.
Proof.
  unfold validate_coupon, validate_coupon_body. run_M.
  destruct (coupons_collection db !! coupon_id) as [c|]; [|done].
  destruct (used c); [done|]. by destruct (now >? expiry_date c).
Qed.

(** No call removes the config document. *)
Lemma handle_keeps_config (call : Call) (db : DB) (k : string) :
  is_Some (config_collection db !! k) →
  is_Some (config_collection (handle MASTER_IP call db).2 !! k).
Proof.
  intros E. destruct call as [|rq u n1 n2|cid now|rq|rq]; simpl.
  - by rewrite test_db_db.
  - destruct (generate_coupon_config rq u n1 n2 db) as [->|[_ ->]]; [done|].
    rewrite lookup_alter. case_decide; [subst; by apply fmap_is_Some | done].
  - by rewrite validate_coupon_config.
  - destruct (reset_limit_config rq db) as [->|[n ->]]; [done|].
    rewrite lookup_alter. case_decide; [subst; by apply fmap_is_Some | done].
  - by rewrite admin_stats_db.
Qed.

Lemma init_mongodb_config (db0 : DB) :
  is_Some (config_collection (init_mongodb db0).2 !! "coupon_limit").
Proof.
  unfold init_mongodb, insert_one_config. run_M.
  destruct (config_collection db0 !! "coupon_limit") eqn:E; simpl.
  - by rewrite E.
  - rewrite E. simpl. by rewrite lookup_insert_eq.
Qed.

Lemma init_mongodb_coupons (db0 : DB) :
  coupons_collection (init_mongodb db0).2 = coupons_collection db0.
Proof.
  unfold init_mongodb, insert_one_config. run_M.
  destruct (config_collection db0 !! "coupon_limit") eqn:E; simpl; [done|].
  by rewrite E.
Qed.

(** A started service always has its config document. *)
Lemma reachable_config (db : DB) :
  reachable MASTER_IP db → is_Some (config_collection db !! "coupon_limit").
Proof.
  induction 1 as [db0 _|c db _ IH].
  - apply init_mongodb_config.
  - by apply handle_keeps_config.
Qed.

(** Every coupon of a reachable state carries the discount the issuance
    handler writes. *)
Lemma reachable_discount (db : DB) :
  reachable MASTER_IP db →
  ∀ id c, coupons_collection db !! id = Some c → discount c = "10%".
Proof.
  induction 1 as [db0 E0|call db _ IH]; intros id c L.
  - rewrite init_mongodb_coupons, E0 in L. by rewrite lookup_empty in L.
  - destruct call as [|rq u n1 n2|cid now|rq|rq]; simpl in L.
    + rewrite test_db_db in L. eauto.
    + destruct (generate_coupon_coupons rq u n1 n2 db) as [R|[_ R]];
        rewrite R in L; [eauto|].
      rewrite lookup_insert in L. case_decide; [by injection L as <- | eauto].
    + destruct (validate_coupon_coupons cid now db) as [R|(c' & E' & _ & R)];
        rewrite R in L; [eauto|].
      rewrite lookup_insert in L.
      case_decide; [injection L as <-; simpl; eauto | eauto].
    + rewrite reset_limit_coupons in L. eauto.
    + rewrite admin_stats_db in L. eauto.
Qed.

Lemma reachable_run (cs : list Call) (db : DB) :
  reachable MASTER_IP db → reachable MASTER_IP (run MASTER_IP cs db).
Proof.
  revert db. induction cs as [|c cs IH]; intros db R; simpl; [done|].
  apply IH. by constructor.
Qed.

(** ** Eligibility checks *)

(** C8: for every config document, [can_generate_coupon] returns [False]
    exactly when [current_count >= limit], returns [True] exactly when
    [current_count < limit], and leaves the database as it was. *)
Theorem can_generate_coupon_spec (db : DB) (cfg : Config) :
  config_collection db !! "coupon_limit" = Some cfg →
  ∃ b : bool,
    can_generate_coupon db = (inr b, db) ∧
    (b = false ↔ current_count cfg >= limit cfg) ∧
    (b = true ↔ current_count cfg < limit cfg).
Proof.
  intros E. exists (current_count cfg <? limit cfg). split.
  - by apply can_generate_coupon_run.
  - destruct (Z.ltb_spec (current_count cfg) (limit cfg)); split; split;
      intros; try done; lia.
Qed.

(** ** Validation *)

Lemma validate_coupon_not_found (coupon_id : string) (now : Z) (db : DB) :
  coupons_collection db !! coupon_id = None →
  validate_coupon coupon_id now db =
    (mkResponse 200
       (Json [("valid", JBool false); ("message", JStr "Coupon not found")])
       [], db).
Proof.
  intros E. unfold validate_coupon, validate_coupon_body. run_M. by rewrite E.
Qed.

Lemma validate_coupon_already_used (coupon_id : string) (now : Z) (db : DB)
    (c : Coupon) :
  coupons_collection db !! coupon_id = Some c →
  used c = true →
  validate_coupon coupon_id now db =
    (mkResponse 200
       (Json [("valid", JBool false); ("message", JStr "Coupon already used")])
       [], db).
Proof.
  intros E U. unfold validate_coupon, validate_coupon_body. run_M.
  by rewrite E, U.
Qed.

Lemma validate_coupon_expired (coupon_id : string) (now : Z) (db : DB)
    (c : Coupon) :
  coupons_collection db !! coupon_id = Some c →
  used c = false →
  now > expiry_date c →
  validate_coupon coupon_id now db =
    (mkResponse 200
       (Json [("valid", JBool false); ("message", JStr "Coupon expired")])
       [], db).
Proof.
  intros E U G. unfold validate_coupon, validate_coupon_body. run_M.
  rewrite E, U. by rewrite (proj2 (Z.gtb_gt _ _) G).
Qed.

Lemma validate_coupon_valid (coupon_id : string) (now : Z) (db : DB)
    (c : Coupon) :
  coupons_collection db !! coupon_id = Some c →
  used c = false →
  now <= expiry_date c →
  validate_coupon coupon_id now db =
    (mkResponse 200
       (Json [("valid", JBool true);
              ("message", JStr "Valid coupon - 10% discount applied at Swaad Station");
              ("discount", JStr (discount c))])
       [],
     mkDB (<[coupon_id := set_used c]> (coupons_collection db))
          (config_collection db)).
Proof.
  intros E U G. unfold validate_coupon, validate_coupon_body. run_M.
  rewrite E, U.
  destruct (Z.gtb_spec now (expiry_date c)); [lia|]. simpl.
  by rewrite (alter_Some_insert _ _ _ _ E).
Qed.

Lemma validate_coupon_status (coupon_id : string) (now : Z) (db : DB) :
  status (validate_coupon coupon_id now db).1 = 200.
Proof.
  unfold validate_coupon, validate_coupon_body. run_M.
  destruct (coupons_collection db !! coupon_id) as [c|]; [|done].
  destruct (used c); [done|]. by destruct (now >? expiry_date c).
Qed.

(** C6: the checks of [validate_coupon] in their order: an unknown
    identifier gives "Coupon not found"; otherwise a used coupon gives
    "Coupon already used", whatever its expiry; otherwise a coupon whose
    expiry the current time exceeds gives "Coupon expired"; and in these
    three cases nothing is written.  Otherwise the answer is valid with the
    stored discount and the coupon is stored again with its used flag true
    and its other fields as they were, so that its flag, false before, is
    true after.  All four answers have status 200. *)
Theorem validate_coupon_checks (coupon_id : string) (now : Z) (db : DB) :
  let result := validate_coupon coupon_id now db in
  (coupons_collection db !! coupon_id = None →
     result = (mkResponse 200
                 (Json [("valid", JBool false); ("message", JStr "Coupon not found")])
                 [], db)) ∧
  (∀ c, coupons_collection db !! coupon_id = Some c → used c = true →
     result = (mkResponse 200
                 (Json [("valid", JBool false); ("message", JStr "Coupon already used")])
                 [], db)) ∧
  (∀ c, coupons_collection db !! coupon_id = Some c → used c = false →
     now > expiry_date c →
     result = (mkResponse 200
                 (Json [("valid", JBool false); ("message", JStr "Coupon expired")])
                 [], db)) ∧
  (∀ c, coupons_collection db !! coupon_id = Some c → used c = false →
     now <= expiry_date c →
     result = (mkResponse 200
                 (Json [("valid", JBool true);
                        ("message", JStr "Valid coupon - 10% discount applied at Swaad Station");
                        ("discount", JStr (discount c))])
                 [],
               mkDB (<[coupon_id :=
                         {| valid := valid c;
                            expiry_date := expiry_date c;
                            discount := discount c;
                            used := true;
                            generating_ip := generating_ip c;
                            generated_by_master := generated_by_master c;
                            created_at := created_at c |}]>
                       (coupons_collection db))
                    (config_collection db)) ∧
     used_flag coupon_id db = Some false ∧
     used_flag coupon_id result.2 = Some true) ∧
  status result.1 = 200.
Proof.
  intros result. subst result.
  split; [apply validate_coupon_not_found|].
  split; [intros c; apply validate_coupon_already_used|].
  split; [intros c; apply validate_coupon_expired|].
  split; [|apply validate_coupon_status].
  intros c L U T. rewrite (validate_coupon_valid coupon_id now db c L U T).
  split; [done|]. unfold used_flag. simpl.
  rewrite L, lookup_insert_eq. simpl. by rewrite U.
Qed.

(** C2: in a state reached by the service, the first validation of an
    unused, unexpired coupon answers valid with the discount "10%" and sets
    the used flag; after it, whatever calls are made in between, every
    validation of the same identifier answers "Coupon already used" and
    changes nothing; and along any run of calls the flag of a coupon goes
    from false to true at most once. *)
Theorem validate_coupon_once (db : DB) (coupon_id : string) (c : Coupon) (now : Z) :
  reachable MASTER_IP db →
  coupons_collection db !! coupon_id = Some c →
  used c = false →
  now <= expiry_date c →
  let first := validate_coupon coupon_id now db in
  first.1 = mkResponse 200
              (Json [("valid", JBool true);
                     ("message", JStr "Valid coupon - 10% discount applied at Swaad Station");
                     ("discount", JStr "10%")])
              [] ∧
  used_flag coupon_id db = Some false ∧
  used_flag coupon_id first.2 = Some true ∧
  (∀ (cs : list Call) (now' : Z),
     let db' := run MASTER_IP cs first.2 in
     validate_coupon coupon_id now' db' =
       (mkResponse 200
          (Json [("valid", JBool false); ("message", JStr "Coupon already used")])
          [], db')) ∧
  (∀ (cs : list Call) (db0 : DB),
     (used_flips MASTER_IP coupon_id cs db0 ≤ 1)%nat).
Proof.
  intros R L U T first.
  pose proof (validate_coupon_valid coupon_id now db c L U T) as V.
  fold first in V.
  assert (used_flag coupon_id first.2 = Some true) as F.
  { rewrite V. unfold used_flag. simpl. by rewrite lookup_insert_eq. }
  split; [|split; [|split; [|split]]].
  - rewrite V. simpl. by rewrite (reachable_discount db R coupon_id c L).
  - unfold used_flag. by rewrite L, <- U.
  - done.
  - intros cs now' db'.
    pose proof (used_flag_stays_run cs _ _ F) as F'. fold db' in F'.
    unfold used_flag in F'.
    destruct (coupons_collection db' !! coupon_id) as [c'|] eqn:L'; [|done].
    injection F' as U'.
    by apply (validate_coupon_already_used coupon_id now' db' c').
  - intros cs db0. apply used_flips_le_1.
Qed.

(** C9: a validation that answers valid changes one thing in the database,
    the used flag of the validated coupon: that coupon keeps its key and
    its validity flag, expiry, discount, originating IP, master flag and
    creation time, every other coupon and the config collection are as
    before; and no call of any handler removes a coupon or changes
    anything of it but the used flag. *)
Theorem validate_coupon_frame :
  (∀ (coupon_id : string) (now : Z) (db : DB),
     let result := validate_coupon coupon_id now db in
     json_member "valid" result.1 = Some (JBool true) →
     ∃ c, coupons_collection db !! coupon_id = Some c ∧
          coupons_collection result.2 !! coupon_id = Some (set_used c) ∧
          same_but_used c (set_used c) ∧
          used c = false ∧ used (set_used c) = true ∧
          (∀ id, id ≠ coupon_id →
                 coupons_collection result.2 !! id = coupons_collection db !! id) ∧
          dom (coupons_collection result.2) = dom (coupons_collection db) ∧
          config_collection result.2 = config_collection db) ∧
  (∀ (call : Call) (db : DB) (id : string) (c : Coupon),
     coupons_collection db !! id = Some c →
     ∃ c', coupons_collection (handle MASTER_IP call db).2 !! id = Some c' ∧
           same_but_used c c').
Proof.
  split.
  - intros coupon_id now db result S.
    subst result.
    destruct (coupons_collection db !! coupon_id) as [c|] eqn:L.
    2:{ rewrite (validate_coupon_not_found _ _ _ L) in S. discriminate S. }
    destruct (used c) eqn:U.
    { rewrite (validate_coupon_already_used _ _ _ c L U) in S. discriminate S. }
    destruct (Z.gtb_spec now (expiry_date c)) as [G|G].
    { rewrite (validate_coupon_expired _ _ _ c L U) in S by lia. discriminate S. }
    exists c. rewrite (validate_coupon_valid _ _ _ c L U G). simpl.
    split; [done|]. split; [by rewrite lookup_insert_eq|].
    split; [apply set_used_same|]. split; [done|]. split; [done|].
    split; [|split; [|done]].
    + intros id Hne. by rewrite lookup_insert_ne.
    + apply dom_insert_lookup_L. eauto.
  - intros call db id c L.
    destruct (handle_keeps_coupon call db id c L) as [E|[_ E]];
      rewrite E; eauto using same_but_used_refl, set_used_same.
Qed.

(** ** Issuance *)

(** [is_ip_allowed] answers true exactly for [MASTER_IP] and for an address
    no stored coupon was generated from, and writes nothing. *)
Lemma is_ip_allowed_spec (ip : string) (db : DB) :
  ∃ b : bool,
    is_ip_allowed MASTER_IP ip db = (inr b, db) ∧
    (b = true ↔
       ip = MASTER_IP ∨
       ¬ ∃ id c, coupons_collection db !! id = Some c ∧ generating_ip c = ip).
Proof.
  unfold is_ip_allowed, find_one_coupon_by_ip. run_M.
  case_bool_decide as E; [exists true; split; [done|]; split; auto|].
  destruct (List.find _ _) as [[id c]|] eqn:F.
  - exists false. split; [done|]. split; [done|]. intros [?|N]; [done|].
    destruct N. apply find_some in F as [I G]. simpl in G.
    apply bool_decide_eq_true in G. exists id, c. split; [|done].
    apply elem_of_map_to_list. by apply list_elem_of_In.
  - exists true. split; [done|]. split; [|done]. intros _. right.
    intros (id & c & L & G).
    assert (In (id, c) (map_to_list (coupons_collection db))) as I.
    { apply list_elem_of_In. by apply elem_of_map_to_list. }
    apply (find_none _ _ F) in I. simpl in I.
    by apply bool_decide_eq_false in I.
Qed.

(** A request whose marker cookie has a non-empty value is answered 403
    "already generated", whatever the caller's address and the quota, and
    the database is left as it was: no coupon is stored and no count is
    incremented. *)
Lemma generate_coupon_marker_cookie (request : Request) (uuid4 : string)
    (now_expiry now_created : Z) (db : DB) (value : string) :
  cookies request !! "coupon_generated" = Some value →
  value ≠ EmptyString →
  generate_coupon MASTER_IP request uuid4 now_expiry now_created db =
    (mkResponse 403
       (Json [("error", JStr "Coupon generation not allowed");
              ("message", JStr "You have already generated a coupon. Only one coupon per device is allowed.")])
       [], db).
Proof.
  intros C N. unfold generate_coupon, generate_coupon_body. rewrite C.
  by destruct value.
Qed.

(** C4, as the code has it: a request from [MASTER_IP] never changes the
    config collection, so [current_count] stays; and when it carries no
    marker cookie (or an empty one) and the identifier drawn is not that
    of a stored coupon, it is answered with the coupon document and the
    coupon is stored (as the store encodes it), for every limit and count
    of the config document. *)
Theorem generate_coupon_master (request : Request) (uuid4 : string)
    (now_expiry now_created : Z) (db : DB) :
  remote_addr request = MASTER_IP →
  let result := generate_coupon MASTER_IP request uuid4 now_expiry now_created db in
  let coupon_id := substring 0 8 uuid4 in
  config_collection result.2 = config_collection db ∧
  (∀ cfg : Config,
     config_collection db !! "coupon_limit" = Some cfg →
     truthy (cookies request !! "coupon_generated") = false →
     coupons_collection db !! coupon_id = None →
     result =
       (mkResponse 200
          (File (mkPDF coupon_id (QRCode coupon_id) (now_expiry + 24 * 60 * 60 * 1000000))
                "application/pdf" true
                ("swaad_station_coupon_" +:+ coupon_id +:+ ".pdf"))
          [mkCookie "coupon_generated" "true" (24 * 60 * 60)],
        mkDB (<[coupon_id :=
                  bson_coupon (coupon_data MASTER_IP request now_expiry now_created)]>
                (coupons_collection db))
             (config_collection db))).
Proof.
  intros E result coupon_id. split.
  - destruct (generate_coupon_config request uuid4 now_expiry now_created db)
      as [?|[N _]]; done.
  - intros cfg C T F. subst result.
    unfold generate_coupon, generate_coupon_body. rewrite T.
    apply try_except_ret.
    rewrite (bind_ret _ _ _ _ _ (can_generate_coupon_run db cfg C)).
    rewrite bool_decide_eq_true_2 by done. rewrite andb_false_r.
    run_M. fold coupon_id. by rewrite F.
Qed.

(** Below the quota the only other gate is the cookie: any caller without a
    (non-empty) marker cookie is issued a coupon under a free identifier,
    whatever the coupons stored for its address. *)
Lemma generate_coupon_below_quota (request : Request) (uuid4 : string)
    (now_expiry now_created : Z) (db : DB) (cfg : Config) :
  truthy (cookies request !! "coupon_generated") = false →
  config_collection db !! "coupon_limit" = Some cfg →
  current_count cfg < limit cfg →
  coupons_collection db !! substring 0 8 uuid4 = None →
  status (generate_coupon MASTER_IP request uuid4 now_expiry now_created db).1 = 200 ∧
  coupons_collection
    (generate_coupon MASTER_IP request uuid4 now_expiry now_created db).2 =
    <[substring 0 8 uuid4 :=
        bson_coupon (coupon_data MASTER_IP request now_expiry now_created)]>
      (coupons_collection db).
Proof.
  intros T C Q F. unfold generate_coupon, generate_coupon_body. rewrite T.
  unfold try_except.
  rewrite (bind_ret _ _ _ _ _ (can_generate_coupon_run db cfg C)).
  rewrite (proj2 (Z.ltb_lt _ _) Q). simpl.
  run_M. rewrite F. simpl. by case_bool_decide.
Qed.

Lemma bson_datetime_bounds (t : Z) :
  t - 1000 < bson_datetime t <= t.
Proof.
  unfold bson_datetime.
  pose proof (Z.div_mod t 1000 ltac:(lia)).
  pose proof (Z.mod_pos_bound t 1000 ltac:(lia)). lia.
Qed.

Lemma bson_datetime_whole (t : Z) :
  t mod 1000 = 0 → bson_datetime t = t.
Proof.
  unfold bson_datetime. intros E.
  pose proof (Z.div_mod t 1000 ltac:(lia)). lia.
Qed.

(** C5, as the code has it: when [generate_coupon] answers 200, the
    identifier was free and a coupon is stored under it with [used] false,
    [valid] true, discount "10%", the caller's address, and the master
    flag set exactly for [MASTER_IP]; its expiry is the current time plus
    one day and its creation time the current time, each cut down to the
    whole millisecond the store keeps (so less than a millisecond
    earlier, and exact for a clock reading of whole milliseconds);
    nothing else changes in the coupons; [current_count] grows by one
    exactly when the caller is not [MASTER_IP]; and the response is the
    PDF, printed with the uncut expiry, sent as an attachment with the
    cookie [coupon_generated] set for one day. *)
Theorem generate_coupon_success (request : Request) (uuid4 : string)
    (now_expiry now_created : Z) (db : DB) :
  let result := generate_coupon MASTER_IP request uuid4 now_expiry now_created db in
  let coupon_id := substring 0 8 uuid4 in
  let one_day := 24 * 60 * 60 * 1000000 in
  status result.1 = 200 →
  coupons_collection db !! coupon_id = None ∧
  (∃ c : Coupon,
     coupons_collection result.2 = <[coupon_id := c]> (coupons_collection db) ∧
     used c = false ∧ valid c = true ∧ discount c = "10%" ∧
     expiry_date c = (now_expiry + one_day) / 1000 * 1000 ∧
     now_expiry + one_day - 1000 < expiry_date c <= now_expiry + one_day ∧
     (now_expiry mod 1000 = 0 → expiry_date c = now_expiry + one_day) ∧
     generating_ip c = remote_addr request ∧
     (generated_by_master c = true ↔ remote_addr request = MASTER_IP) ∧
     created_at c = now_created / 1000 * 1000 ∧
     now_created - 1000 < created_at c <= now_created) ∧
  (∃ cfg : Config,
     config_collection db !! "coupon_limit" = Some cfg ∧
     config_collection result.2 =
       <["coupon_limit" :=
           mkConfig (limit cfg)
                    (if bool_decide (remote_addr request = MASTER_IP)
                     then current_count cfg else current_count cfg + 1)]>
         (config_collection db) ∧
     (remote_addr request = MASTER_IP →
        config_collection result.2 = config_collection db)) ∧
  result.1 =
    mkResponse 200
      (File (mkPDF coupon_id (QRCode coupon_id) (now_expiry + one_day))
            "application/pdf" true
            ("swaad_station_coupon_" +:+ coupon_id +:+ ".pdf"))
      [mkCookie "coupon_generated" "true" (24 * 60 * 60)].
Proof.
  intros result coupon_id one_day. subst result.
  assert (∀ c : Coupon,
            expiry_date c = bson_datetime (now_expiry + one_day) →
            created_at c = bson_datetime now_created →
            expiry_date c = (now_expiry + one_day) / 1000 * 1000 ∧
            now_expiry + one_day - 1000 < expiry_date c <= now_expiry + one_day ∧
            (now_expiry mod 1000 = 0 → expiry_date c = now_expiry + one_day) ∧
            created_at c = now_created / 1000 * 1000 ∧
            now_created - 1000 < created_at c <= now_created) as Times.
  { intros c -> ->. split; [done|]. split; [apply bson_datetime_bounds|].
    split; [|split; [done | apply bson_datetime_bounds]].
    intros W. apply bson_datetime_whole.
    subst one_day. rewrite Z.add_mod, W by lia. done. }
  unfold generate_coupon, generate_coupon_body, can_generate_coupon. run_M.
  fold coupon_id.
  destruct (truthy _); simpl; [done|].
  destruct (config_collection db !! "coupon_limit") as [cfg|] eqn:C; simpl; [|done].
  destruct (negb (current_count cfg <? limit cfg) && _); simpl; [done|].
  destruct (coupons_collection db !! coupon_id) eqn:F; simpl; [done|].
  intros _. split; [done|].
  case_bool_decide as E; simpl.
  - split; [|split; [|done]].
    + eexists. split; [done|].
      destruct (Times (bson_coupon (coupon_data MASTER_IP request now_expiry now_created))
                  eq_refl eq_refl) as (T1 & T2 & T3 & T4 & T5).
      simpl. rewrite bool_decide_eq_true_2 by done.
      repeat split; first [done | apply T2 | apply T5].
    + exists cfg. split; [done|]. split; [|done].
      rewrite insert_id; [done|]. by destruct cfg.
  - split; [|split; [|done]].
    + eexists. split; [done|].
      destruct (Times (bson_coupon (coupon_data MASTER_IP request now_expiry now_created))
                  eq_refl eq_refl) as (T1 & T2 & T3 & T4 & T5).
      simpl. rewrite bool_decide_eq_false_2 by done.
      repeat split; first [done | apply T2 | apply T5].
    + exists cfg. split; [done|]. split; [|done].
      by rewrite (alter_Some_insert _ _ _ _ C).
Qed.

(** ** Quota administration *)



Lemma reset_limit_run (request : Request) (payload : gmap string Z) (db : DB) :
  remote_addr request = MASTER_IP →
  json request = Some payload →
  let new_limit := default 150 (payload !! "limit") in
  reset_limit MASTER_IP request db =
    if fits_int64 new_limit then
      (mkResponse 200
         (Json [("message", JStr ("Coupon limit reset to " +:+ str_int new_limit));
                ("new_limit", JInt new_limit)])
         [],
       mkDB (coupons_collection db)
            (alter (set_limit new_limit) "coupon_limit" (config_collection db)))
    else
      (mkResponse 500
         (Json [("status", JStr "error"); ("message", JExc OverflowError)]) [], db).
Proof.
  intros E J. unfold reset_limit, reset_limit_body. run_M.
  rewrite bool_decide_eq_true_2 by done. simpl. rewrite J.
  by destruct (fits_int64 _).
Qed.

Lemma lookup_alter_set_limit (n : Z) (m : gmap string Config) :
  alter (set_limit n) "coupon_limit" m !! "coupon_limit" =
    (λ _, mkConfig n 0) <$> m !! "coupon_limit".
Proof.
  rewrite lookup_alter, decide_True by done.
  by destruct (m !! "coupon_limit").
Qed.


(** C10: [reset_limit] called from [MASTER_IP] with a JSON body that has no
    [limit] member sets the limit to 150 and the count to zero, and reports
    150. *)
Theorem reset_limit_default (request : Request) (payload : gmap string Z) (db : DB) :
  remote_addr request = MASTER_IP →
  json request = Some payload →
  payload !! "limit" = None →
  let result := reset_limit MASTER_IP request db in
  result.1 = mkResponse 200
               (Json [("message", JStr "Coupon limit reset to 150");
                      ("new_limit", JInt 150)])
               [] ∧
  config_collection result.2 !! "coupon_limit" =
    (λ _, mkConfig 150 0) <$> config_collection db !! "coupon_limit" ∧
  (∀ cfg, config_collection db !! "coupon_limit" = Some cfg →
      ∃ cfg', config_collection result.2 !! "coupon_limit" = Some cfg' ∧
              limit cfg' = 150 ∧ current_count cfg' = 0).
Proof.
  intros E J P result. subst result.
  rewrite (reset_limit_run request payload db E J), P. simpl.
  split; [done|].
  split; [apply lookup_alter_set_limit|].
  intros cfg C. rewrite lookup_alter_set_limit, C. simpl. eauto.
Qed.

End Properties.

(** * The properties at concrete requests *)

Lemma fresh_db_reachable : reachable default_master_ip fresh_db.
Proof. by apply (reach_init _ (mkDB ∅ ∅)). Qed.

Lemma db_one_coupon_reachable : reachable default_master_ip db_one_coupon.
Proof. apply reachable_run, fresh_db_reachable. Qed.

(** C1: the issuance handler does not consult [is_ip_allowed].  10.0.0.5 is
    not [MASTER_IP], a coupon generated from it is stored, and
    [is_ip_allowed] answers false for it; its next request, without
    cookie, is answered 200 with a document all the same, a second coupon
    with that originating address is stored and the count goes to 2. *)
Theorem generate_coupon_ignores_ip :
  let ip := "10.0.0.5" in
  let request := plain_request ip in
  let result := generate_coupon default_master_ip request uuid_b 2000 2001 db_one_coupon in
  ip ≠ default_master_ip ∧
  cookies request !! "coupon_generated" = None ∧
  coupons_collection db_one_coupon !! "abcdef12" = Some coupon_a ∧
  generating_ip coupon_a = ip ∧
  is_ip_allowed default_master_ip ip db_one_coupon = (inr false, db_one_coupon) ∧
  status result.1 = 200 ∧
  coupons_collection result.2 !! "abcdef12" = Some coupon_a ∧
  coupons_collection result.2 !! "12345678" =
    Some (mkCoupon true 86400002000 "10%" false ip false 2000) ∧
  config_collection result.2 !! "coupon_limit" = Some (mkConfig 150 2).
Proof. vm_compute. repeat split; try reflexivity. discriminate. Qed.

(** C3: the check for an existing cookie misses a cookie whose value is
    empty.  A request from 10.0.0.7 whose marker cookie is present with
    the empty value is not refused: it is answered 200 with a document, a
    coupon is stored and the count goes from 0 to 1, where a request with
    the cookie present is to be answered 403 with nothing written. *)
Theorem generate_coupon_empty_cookie_served :
  let request := cookie_request "10.0.0.7" EmptyString in
  let result := generate_coupon default_master_ip request uuid_a 1000 1001 fresh_db in
  is_Some (cookies request !! "coupon_generated") ∧
  cookies request !! "coupon_generated" = Some EmptyString ∧
  status result.1 = 200 ∧
  set_cookies result.1 = [mkCookie "coupon_generated" "true" 86400] ∧
  coupons_collection fresh_db !! "abcdef12" = None ∧
  coupons_collection result.2 !! "abcdef12" =
    Some (mkCoupon true 86400001000 "10%" false "10.0.0.7" false 1000) ∧
  config_collection fresh_db !! "coupon_limit" = Some (mkConfig 150 0) ∧
  config_collection result.2 !! "coupon_limit" = Some (mkConfig 150 1).
Proof. vm_compute. repeat split; try reflexivity; by eexists. Qed.

(** C4 as stated fails: a request from [MASTER_IP] that carries the marker
    cookie is answered 403 and no coupon is issued; and one without cookie
    whose identifier is that of a stored coupon is answered 500, the
    database staying as it was. *)
Lemma generate_coupon_master_cookie_counterexample :
  let request := cookie_request default_master_ip "true" in
  let result := generate_coupon default_master_ip request uuid_a 1000 1001 fresh_db in
  let request' := plain_request default_master_ip in
  let result' := generate_coupon default_master_ip request' uuid_a 2000 2001 db_one_coupon in
  remote_addr request = default_master_ip ∧
  status result.1 = 403 ∧
  result.2 = fresh_db ∧
  coupons_collection result.2 = ∅ ∧
  remote_addr request' = default_master_ip ∧
  result' = (error_500 (DuplicateKeyError "abcdef12"), db_one_coupon).
Proof. vm_compute. repeat split; reflexivity. Qed.

Lemma can_generate_coupon_spec_witness :
  config_collection db_limit_reached !! "coupon_limit" = Some (mkConfig 0 0) ∧
  ∃ b : bool,
    can_generate_coupon db_limit_reached = (inr b, db_limit_reached) ∧
    (b = false ↔ 0 >= 0) ∧ (b = true ↔ 0 < 0).
Proof.
  split; [reflexivity|].
  apply (can_generate_coupon_spec db_limit_reached (mkConfig 0 0)). reflexivity.
Defined.

Lemma validate_coupon_checks_witness :
  (validate_coupon "zzz" 5000 db_one_coupon).1 =
    mkResponse 200
      (Json [("valid", JBool false); ("message", JStr "Coupon not found")]) [] ∧
  (validate_coupon "abcdef12" 86400001001 db_one_coupon).1 =
    mkResponse 200
      (Json [("valid", JBool false); ("message", JStr "Coupon expired")]) [] ∧
  (validate_coupon "abcdef12" 86400001000 db_one_coupon).1 =
    mkResponse 200
      (Json [("valid", JBool true);
             ("message", JStr "Valid coupon - 10% discount applied at Swaad Station");
             ("discount", JStr "10%")]) [] ∧
  used_flag "abcdef12" db_one_coupon = Some false ∧
  used_flag "abcdef12" (validate_coupon "abcdef12" 86400001000 db_one_coupon).2
    = Some true.
Proof.
  split; [|split].
  - destruct (validate_coupon_checks "zzz" 5000 db_one_coupon) as (N & _).
    rewrite N; reflexivity.
  - destruct (validate_coupon_checks "abcdef12" 86400001001 db_one_coupon)
      as (_ & _ & X & _).
    rewrite (X coupon_a); reflexivity.
  - destruct (validate_coupon_checks "abcdef12" 86400001000 db_one_coupon)
      as (_ & _ & _ & V & _).
    assert (86400001000 <= expiry_date coupon_a) as T
      by (vm_compute; discriminate).
    destruct (V coupon_a eq_refl eq_refl T) as (R & F & F').
    split; [by rewrite R|]. split; [exact F | exact F'].
Defined.

Lemma validate_coupon_once_witness :
  reachable default_master_ip db_one_coupon ∧
  coupons_collection db_one_coupon !! "abcdef12" = Some coupon_a ∧
  used coupon_a = false ∧
  5000 <= expiry_date coupon_a ∧
  let first := validate_coupon "abcdef12" 5000 db_one_coupon in
  first.1 =
    mkResponse 200
      (Json [("valid", JBool true);
             ("message", JStr "Valid coupon - 10% discount applied at Swaad Station");
             ("discount", JStr "10%")]) [] ∧
  (validate_coupon "abcdef12" 6000 first.2).1 =
    mkResponse 200
      (Json [("valid", JBool false); ("message", JStr "Coupon already used")]) [] ∧
  (used_flips default_master_ip "abcdef12"
     [ValidateCoupon "abcdef12" 5000; ValidateCoupon "abcdef12" 6000;
      ValidateCoupon "abcdef12" 7000] db_one_coupon ≤ 1)%nat.
Proof.
  assert (5000 <= expiry_date coupon_a) as T by (vm_compute; discriminate).
  split; [exact db_one_coupon_reachable|].
  split; [reflexivity|]. split; [reflexivity|]. split; [exact T|].
  destruct (validate_coupon_once default_master_ip db_one_coupon "abcdef12"
              coupon_a 5000 db_one_coupon_reachable eq_refl eq_refl T)
    as (A & _ & _ & B & C).
  split; [exact A|]. split; [|apply C].
  specialize (B [] 6000). simpl in B. by rewrite B.
Defined.

Lemma validate_coupon_frame_witness :
  let result := validate_coupon "abcdef12" 5000 db_one_coupon in
  json_member "valid" result.1 = Some (JBool true) ∧
  ∃ c, coupons_collection db_one_coupon !! "abcdef12" = Some c ∧
       coupons_collection result.2 !! "abcdef12" = Some (set_used c) ∧
       same_but_used c (set_used c) ∧
       config_collection result.2 = config_collection db_one_coupon.
Proof.
  assert (json_member "valid" (validate_coupon "abcdef12" 5000 db_one_coupon).1
          = Some (JBool true)) as S by reflexivity.
  split; [exact S|].
  destruct (validate_coupon_frame default_master_ip) as [F _].
  destruct (F "abcdef12" 5000 db_one_coupon S) as (c & A & B & C & _ & _ & _ & _ & D).
  exists c. repeat split; try done; apply C.
Defined.

Lemma generate_coupon_marker_cookie_witness :
  let request := cookie_request default_master_ip "true" in
  cookies request !! "coupon_generated" = Some "true" ∧
  "true" ≠ EmptyString ∧
  generate_coupon default_master_ip request uuid_a 1000 1001 db_limit_reached =
    (mkResponse 403
       (Json [("error", JStr "Coupon generation not allowed");
              ("message", JStr "You have already generated a coupon. Only one coupon per device is allowed.")])
       [], db_limit_reached).
Proof.
  assert ("true" ≠ EmptyString) as N by discriminate.
  split; [reflexivity|]. split; [exact N|].
  apply (generate_coupon_marker_cookie default_master_ip
           (cookie_request default_master_ip "true") uuid_a 1000 1001
           db_limit_reached "true"); [reflexivity | exact N].
Defined.

Lemma generate_coupon_master_witness :
  let request := plain_request default_master_ip in
  let result := generate_coupon default_master_ip request uuid_a 1000 1001 db_limit_reached in
  remote_addr request = default_master_ip ∧
  config_collection db_limit_reached !! "coupon_limit" = Some (mkConfig 0 0) ∧
  truthy (cookies request !! "coupon_generated") = false ∧
  coupons_collection db_limit_reached !! "abcdef12" = None ∧
  config_collection result.2 = config_collection db_limit_reached ∧
  status result.1 = 200 ∧
  is_Some (coupons_collection result.2 !! "abcdef12").
Proof.
  split; [reflexivity|]. split; [reflexivity|]. split; [reflexivity|].
  split; [reflexivity|].
  destruct (generate_coupon_master default_master_ip
              (plain_request default_master_ip) uuid_a 1000 1001 db_limit_reached
              eq_refl) as [A B].
  split; [exact A|].
  rewrite (B (mkConfig 0 0) eq_refl eq_refl eq_refl). simpl.
  split; [reflexivity|]. rewrite lookup_insert_eq. by eexists.
Defined.

Lemma generate_coupon_success_witness :
  let request := plain_request "10.0.0.5" in
  let result := generate_coupon default_master_ip request uuid_a 1500 1501 fresh_db in
  status result.1 = 200 ∧
  coupons_collection fresh_db !! "abcdef12" = None ∧
  (∃ c : Coupon,
     coupons_collection result.2 = <["abcdef12" := c]> (coupons_collection fresh_db) ∧
     used c = false ∧ valid c = true ∧ discount c = "10%" ∧
     expiry_date c = 86400001000 ∧
     generating_ip c = "10.0.0.5" ∧
     created_at c = 1000) ∧
  result.1 =
    mkResponse 200
      (File (mkPDF "abcdef12" (QRCode "abcdef12") 86400001500)
            "application/pdf" true "swaad_station_coupon_abcdef12.pdf")
      [mkCookie "coupon_generated" "true" 86400].
Proof.
  assert (status (generate_coupon default_master_ip (plain_request "10.0.0.5")
                    uuid_a 1500 1501 fresh_db).1 = 200) as S by reflexivity.
  split; [exact S|].
  destruct (generate_coupon_success default_master_ip (plain_request "10.0.0.5")
              uuid_a 1500 1501 fresh_db S)
    as (A & (c & B1 & B2 & B3 & B4 & B5 & _ & _ & B8 & _ & B10 & _) & _ & D).
  split; [exact A|]. split; [|exact D].
  exists c. repeat split; assumption.
Defined.

(** C5 as stated fails: the store keeps datetimes to the millisecond, so
    for a clock reading with a part below the millisecond the expiry
    stored is not the current time plus one day, and the creation time
    stored is not the current time. *)
Lemma generate_coupon_expiry_counterexample :
  let request := plain_request "10.0.0.5" in
  let result := generate_coupon default_master_ip request uuid_a 1500 1501 fresh_db in
  status result.1 = 200 ∧
  coupons_collection result.2 !! "abcdef12" =
    Some (mkCoupon true 86400001000 "10%" false "10.0.0.5" false 1000) ∧
  86400001000 ≠ 1500 + 24 * 60 * 60 * 1000000 ∧
  1000 ≠ 1501.
Proof. vm_compute. repeat split; try reflexivity; discriminate. Qed.



Lemma reset_limit_default_witness :
  let request := json_request default_master_ip ∅ in
  let result := reset_limit default_master_ip request db_one_coupon in
  remote_addr request = default_master_ip ∧
  json request = Some ∅ ∧
  (∅ : gmap string Z) !! "limit" = None ∧
  config_collection db_one_coupon !! "coupon_limit" = Some (mkConfig 150 1) ∧
  result.1 = mkResponse 200
               (Json [("message", JStr "Coupon limit reset to 150");
                      ("new_limit", JInt 150)]) [] ∧
  config_collection result.2 !! "coupon_limit" = Some (mkConfig 150 0).
Proof.
  assert ((∅ : gmap string Z) !! "limit" = None) as P by reflexivity.
  split; [reflexivity|]. split; [reflexivity|]. split; [exact P|].
  split; [reflexivity|].
  destruct (reset_limit_default default_master_ip
              (json_request default_master_ip ∅) ∅ db_one_coupon
              eq_refl eq_refl P) as (A & B & _).
  split; [exact A|]. rewrite B. reflexivity.
Defined.

(** * Further properties of the handlers *)

Lemma count_documents_run (P : Coupon → bool) (db : DB) :
  count_documents P db = (inr (count_where P (coupons_collection db)), db).
Proof. reflexivity. Qed.

Lemma filter_length_Permutation {A} (f : A → bool) (l l' : list A) :
  l ≡ₚ l' → List.length (List.filter f l) = List.length (List.filter f l').
Proof.
  induction 1 as [|x l l' _ IH|x y l|l l' l'' _ IH1 _ IH2]; simpl.
  - done.
  - destruct (f x); simpl; congruence.
  - destruct (f x), (f y); done.
  - congruence.
Qed.

Lemma count_where_insert_fresh (P : Coupon → bool) (m : gmap string Coupon)
    (k : string) (c : Coupon) :
  m !! k = None →
  count_where P (<[k := c]> m) = count_where P m + (if P c then 1 else 0).
Proof.
  intros E. unfold count_where.
  rewrite (filter_length_Permutation _ _ _ (map_to_list_insert m k c E)).
  simpl. destruct (P c); simpl; lia.
Qed.

Lemma count_where_insert_stored (P : Coupon → bool) (m : gmap string Coupon)
    (k : string) (c c' : Coupon) :
  m !! k = Some c →
  count_where P (<[k := c']> m) =
    count_where P m - (if P c then 1 else 0) + (if P c' then 1 else 0).
Proof.
  intros E.
  rewrite <- (insert_delete_eq m k c').
  rewrite count_where_insert_fresh by apply lookup_delete_eq.
  rewrite <- (insert_id m k c E) at 2.
  rewrite <- (insert_delete_eq m k c).
  rewrite (count_where_insert_fresh P (delete k m) k c) by apply lookup_delete_eq.
  lia.
Qed.

Lemma count_where_bounds (P : Coupon → bool) (m : gmap string Coupon) :
  0 <= count_where P m <= Z.of_nat (size m).
Proof.
  unfold count_where. split; [lia|].
  apply inj_le. rewrite <- (length_map_to_list m).
  apply filter_length_le.
Qed.

Lemma count_where_all (m : gmap string Coupon) :
  count_where (λ _, true) m = Z.of_nat (size m).
Proof.
  unfold count_where. rewrite <- (length_map_to_list m). f_equal.
  induction (map_to_list m) as [|x l IH]; simpl; congruence.
Qed.

(** ** Start-up and the connection test *)

(** X1: [init_mongodb] does not raise; it leaves the coupons and every
    config document that exists as they are, and puts the document
    [{limit: 150, current_count: 0}] under [coupon_limit] only when there
    is none; run a second time it changes nothing. *)
Theorem init_mongodb_spec (db0 : DB) :
  let db := (init_mongodb db0).2 in
  (init_mongodb db0).1 = inr tt ∧
  coupons_collection db = coupons_collection db0 ∧
  config_collection db !! "coupon_limit" =
    Some (default (mkConfig 150 0) (config_collection db0 !! "coupon_limit")) ∧
  (∀ k, k ≠ "coupon_limit" →
        config_collection db !! k = config_collection db0 !! k) ∧
  init_mongodb db = (inr tt, db).
Proof.
  unfold init_mongodb, insert_one_config. run_M.
  destruct (config_collection db0 !! "coupon_limit") as [cfg|] eqn:E; simpl.
  - rewrite E. by repeat split.
  - rewrite E. simpl. rewrite lookup_insert_eq. repeat split; try done.
    intros k N. by rewrite lookup_insert_ne.
Qed.

(** X2: [test_db] never writes and always answers with status 200: with the
    stored limit and count when the config document is there, and with
    [{status: "error"}], still under status 200, when it is missing. *)
Theorem test_db_spec (db : DB) :
  (test_db db).2 = db ∧
  status (test_db db).1 = 200 ∧
  (∀ cfg, config_collection db !! "coupon_limit" = Some cfg →
     (test_db db).1 =
       mkResponse 200
         (Json [("status", JStr "success");
                ("data", JObj [("limit", JInt (limit cfg));
                               ("current_count", JInt (current_count cfg))])])
         []) ∧
  (config_collection db !! "coupon_limit" = None →
     (test_db db).1 =
       mkResponse 200
         (Json [("status", JStr "error"); ("message", JExc TypeError)]) []).
Proof.
  unfold test_db. run_M.
  destruct (config_collection db !! "coupon_limit") as [cfg|]; simpl;
    repeat split; try done; intros cfg' [= <-]; done.
Qed.

Section MoreProperties.

Variable MASTER_IP : string.

(** ** Issuance: the quota and the faults *)

(** X3: a request without (non-empty) marker cookie from an address other
    than [MASTER_IP] is answered 403 "Coupon limit reached" when
    [current_count >= limit], and nothing is written. *)
Theorem generate_coupon_limit_reached (request : Request) (uuid4 : string)
    (now_expiry now_created : Z) (db : DB) (cfg : Config) :
  truthy (cookies request !! "coupon_generated") = false →
  remote_addr request ≠ MASTER_IP →
  config_collection db !! "coupon_limit" = Some cfg →
  current_count cfg >= limit cfg →
  generate_coupon MASTER_IP request uuid4 now_expiry now_created db =
    (mkResponse 403
       (Json [("error", JStr "Coupon generation not allowed");
              ("message", JStr "Coupon limit reached. Please try again later.")])
       [], db).
Proof.
  intros T N C Q. unfold generate_coupon, generate_coupon_body. rewrite T.
  unfold try_except.
  rewrite (bind_ret _ _ _ _ _ (can_generate_coupon_run db cfg C)).
  rewrite (proj2 (Z.ltb_ge _ _)) by lia.
  by rewrite bool_decide_eq_false_2.
Qed.

(** X4: when the identifier drawn is that of a stored coupon, a request that
    passed the cookie and quota gates is answered 500 with the
    duplicate-key fault; the stored coupon is kept and the count is not
    incremented. *)
Theorem generate_coupon_duplicate_id (request : Request) (uuid4 : string)
    (now_expiry now_created : Z) (db : DB) (cfg : Config) (c : Coupon) :
  truthy (cookies request !! "coupon_generated") = false →
  config_collection db !! "coupon_limit" = Some cfg →
  remote_addr request = MASTER_IP ∨ current_count cfg < limit cfg →
  coupons_collection db !! substring 0 8 uuid4 = Some c →
  generate_coupon MASTER_IP request uuid4 now_expiry now_created db =
    (mkResponse 500
       (Json [("status", JStr "error");
              ("message", JExc (DuplicateKeyError (substring 0 8 uuid4)))])
       [], db).
Proof.
  intros T C Q F. unfold generate_coupon, generate_coupon_body. rewrite T.
  unfold try_except.
  rewrite (bind_ret _ _ _ _ _ (can_generate_coupon_run db cfg C)).
  assert (negb (current_count cfg <? limit cfg)
          && negb (bool_decide (remote_addr request = MASTER_IP)) = false) as ->.
  { destruct Q as [Q|Q].
    - rewrite (bool_decide_eq_true_2 _ Q). apply andb_false_r.
    - by rewrite (proj2 (Z.ltb_lt _ _) Q). }
  run_M. by rewrite F.
Qed.

(** X5: when the config document is missing, every request without
    (non-empty) marker cookie, that of [MASTER_IP] included, is answered
    500 and nothing is stored. *)
Theorem generate_coupon_no_config (request : Request) (uuid4 : string)
    (now_expiry now_created : Z) (db : DB) :
  truthy (cookies request !! "coupon_generated") = false →
  config_collection db !! "coupon_limit" = None →
  generate_coupon MASTER_IP request uuid4 now_expiry now_created db =
    (mkResponse 500
       (Json [("status", JStr "error"); ("message", JExc TypeError)]) [], db).
Proof.
  intros T C. unfold generate_coupon, generate_coupon_body. rewrite T.
  unfold try_except.
  by rewrite (bind_raise _ _ _ _ _ (can_generate_coupon_no_config db C)).
Qed.

Lemma generate_coupon_200 (request : Request) (uuid4 : string)
    (now_expiry now_created : Z) (db : DB) :
  let result := generate_coupon MASTER_IP request uuid4 now_expiry now_created db in
  let coupon_id := substring 0 8 uuid4 in
  status result.1 = 200 →
  truthy (cookies request !! "coupon_generated") = false ∧
  coupons_collection db !! coupon_id = None ∧
  (∃ cfg, config_collection db !! "coupon_limit" = Some cfg ∧
          (remote_addr request = MASTER_IP ∨ current_count cfg < limit cfg)) ∧
  set_cookies result.1 = [mkCookie "coupon_generated" "true" (24 * 60 * 60)] ∧
  coupons_collection result.2 =
    <[coupon_id := bson_coupon (coupon_data MASTER_IP request now_expiry now_created)]>
      (coupons_collection db) ∧
  config_collection result.2 =
    (if bool_decide (remote_addr request = MASTER_IP)
     then config_collection db
     else alter inc_current_count "coupon_limit" (config_collection db)).
Proof.
  intros result coupon_id. subst result.
  unfold generate_coupon, generate_coupon_body, can_generate_coupon. run_M.
  fold coupon_id.
  destruct (truthy _); simpl; [done|].
  destruct (config_collection db !! "coupon_limit") as [cfg|] eqn:C; simpl; [|done].
  destruct (Z.ltb_spec (current_count cfg) (limit cfg)) as [Q|Q]; simpl.
  - destruct (coupons_collection db !! coupon_id) eqn:F; simpl; [done|].
    intros _. split; [done|]. split; [done|]. split; [eauto|].
    by case_bool_decide.
  - case_bool_decide as E; simpl; [|done].
    destruct (coupons_collection db !! coupon_id) eqn:F; simpl; [done|].
    intros _. split; [done|]. split; [done|]. split; [eauto|]. done.
Qed.

(** X6: the cookie of a successful issuance closes the door: a request that
    sends back the cookies that response set is answered 403 "already
    generated", from whatever address, at whatever state of the database,
    and writes nothing. *)
Theorem generate_coupon_cookie_blocks (request : Request) (uuid4 : string)
    (now_expiry now_created : Z) (db : DB) :
  let result := generate_coupon MASTER_IP request uuid4 now_expiry now_created db in
  status result.1 = 200 →
  ∀ (request' : Request) (uuid4' : string) (now_expiry' now_created' : Z) (db' : DB),
    (∀ ck, ck ∈ set_cookies result.1 →
           cookies request' !! cookie_key ck = Some (cookie_value ck)) →
    generate_coupon MASTER_IP request' uuid4' now_expiry' now_created' db' =
      (mkResponse 403
         (Json [("error", JStr "Coupon generation not allowed");
                ("message", JStr "You have already generated a coupon. Only one coupon per device is allowed.")])
         [], db').
Proof.
  intros result S request' uuid4' n1 n2 db' K.
  destruct (generate_coupon_200 request uuid4 now_expiry now_created db S)
    as (_ & _ & _ & CK & _).
  fold result in CK. rewrite CK in K.
  specialize (K (mkCookie "coupon_generated" "true" (24 * 60 * 60))).
  simpl in K.
  unfold generate_coupon, generate_coupon_body.
  rewrite K by apply list_elem_of_here. done.
Qed.

(** ** The quota over a run of calls *)





(** X8: an answer 403, from whichever handler, means the database was not
    written. *)
Theorem forbidden_writes_nothing (call : Call) (db : DB) :
  status (handle MASTER_IP call db).1 = 403 →
  (handle MASTER_IP call db).2 = db.
Proof.
  destruct call as [|rq u n1 n2|cid now|rq|rq]; simpl.
  - intros _. apply test_db_db.
  - unfold generate_coupon, generate_coupon_body, can_generate_coupon. run_M.
    destruct (truthy _); simpl; [done|].
    destruct (config_collection db !! "coupon_limit") as [cfg|]; simpl; [|done].
    destruct (negb (current_count cfg <? limit cfg) && _); simpl; [done|].
    destruct (coupons_collection db !! substring 0 8 u); simpl; [done|].
    by case_bool_decide.
  - by rewrite validate_coupon_status.
  - unfold reset_limit, reset_limit_body. run_M.
    case_bool_decide; simpl; [|done].
    destruct (json rq) as [payload|]; simpl; [|done].
    by destruct (fits_int64 _).
  - intros _. apply admin_stats_db.
Qed.

(** ** What the stored coupons look like *)

(** X9: every coupon of a reachable state has [valid] true, the discount
    "10%", and the master flag set exactly when its originating address is
    [MASTER_IP]. *)
Theorem reachable_coupon_flags (db : DB) (id : string) (c : Coupon) :
  reachable MASTER_IP db →
  coupons_collection db !! id = Some c →
  valid c = true ∧ discount c = "10%" ∧
  (generated_by_master c = true ↔ generating_ip c = MASTER_IP).
Proof.
  intros R. revert id c.
  induction R as [db0 E0|call db _ IH]; intros id c L.
  - rewrite init_mongodb_coupons, E0 in L. by rewrite lookup_empty in L.
  - destruct (decide (is_Some (coupons_collection db !! id))) as [[c0 L0]|N].
    + destruct (handle_keeps_coupon MASTER_IP call db id c0 L0) as [E|[_ E]];
        rewrite E in L; injection L as <-; simpl; eauto.
    + apply eq_None_not_Some in N.
      destruct call as [|rq u n1 n2|cid now|rq|rq]; simpl in L.
      * rewrite test_db_db in L. congruence.
      * destruct (generate_coupon_coupons MASTER_IP rq u n1 n2 db) as [E|[_ E]];
          rewrite E in L; [congruence|].
        rewrite lookup_insert in L. case_decide; [|congruence].
        injection L as <-. simpl. split; [done|]. split; [done|].
        apply bool_decide_eq_true.
      * destruct (validate_coupon_coupons cid now db) as [E|(c' & E' & _ & E)];
          rewrite E in L; [congruence|].
        rewrite lookup_insert in L. case_decide; subst; congruence.
      * rewrite reset_limit_coupons in L. congruence.
      * rewrite admin_stats_db in L. congruence.
Qed.

(** ** Issuance followed by validation *)

(** X10: the coupon of a successful issuance can be redeemed until its
    stored expiry, which is the issuance time plus one day cut down to the
    whole millisecond: validated at a time up to that expiry it answers
    valid with discount "10%", validated later it answers "Coupon expired"
    and stays unused.  So it is valid at every time up to a millisecond
    before the day is over, and expired at every time after the day. *)
Theorem issue_then_validate (request : Request) (uuid4 : string)
    (now_expiry now_created : Z) (db : DB) :
  let result := generate_coupon MASTER_IP request uuid4 now_expiry now_created db in
  let coupon_id := substring 0 8 uuid4 in
  let one_day := 24 * 60 * 60 * 1000000 in
  let expiry := (now_expiry + one_day) / 1000 * 1000 in
  let valid_answer :=
    mkResponse 200
      (Json [("valid", JBool true);
             ("message", JStr "Valid coupon - 10% discount applied at Swaad Station");
             ("discount", JStr "10%")])
      [] in
  let expired_answer :=
    mkResponse 200
      (Json [("valid", JBool false); ("message", JStr "Coupon expired")]) [] in
  status result.1 = 200 →
  (∀ now, now <= expiry →
     (validate_coupon coupon_id now result.2).1 = valid_answer) ∧
  (∀ now, now > expiry →
     validate_coupon coupon_id now result.2 = (expired_answer, result.2)) ∧
  (∀ now, now <= now_expiry + one_day - 1000 →
     (validate_coupon coupon_id now result.2).1 = valid_answer) ∧
  (∀ now, now > now_expiry + one_day →
     validate_coupon coupon_id now result.2 = (expired_answer, result.2)).
Proof.
  intros result coupon_id one_day expiry valid_answer expired_answer S.
  destruct (generate_coupon_200 request uuid4 now_expiry now_created db S)
    as (_ & _ & _ & _ & E & _).
  fold result coupon_id in E.
  assert (coupons_collection result.2 !! coupon_id
          = Some (bson_coupon (coupon_data MASTER_IP request now_expiry now_created)))
    as L by (rewrite E; apply lookup_insert_eq).
  pose proof (bson_datetime_bounds (now_expiry + one_day)) as B.
  assert (∀ now, now <= expiry →
            (validate_coupon coupon_id now result.2).1 = valid_answer) as V.
  { intros now T.
    by rewrite (validate_coupon_valid coupon_id now _ _ L eq_refl T). }
  assert (∀ now, now > expiry →
            validate_coupon coupon_id now result.2 = (expired_answer, result.2)) as X.
  { intros now T.
    by apply (validate_coupon_expired coupon_id now _ _ L eq_refl T). }
  split; [exact V|]. split; [exact X|]. split; intros now T.
  - apply V. unfold expiry, bson_datetime in *. lia.
  - apply X. unfold expiry, bson_datetime in *. lia.
Qed.

(** ** Statistics *)

Lemma size_list_to_set_le (l : list string) :
  (size (list_to_set l : gset string) ≤ List.length l)%nat.
Proof.
  induction l as [|x l IH].
  - rewrite list_to_set_nil, size_empty. simpl. lia.
  - rewrite list_to_set_cons, size_union_alt, size_singleton. simpl.
    pose proof (subseteq_size (list_to_set l ∖ {[x]}) (list_to_set l : gset string)) as D.
    assert (list_to_set l ∖ {[x]} ⊆ (list_to_set l : gset string)) as Sub
      by (intros y; rewrite elem_of_difference; tauto).
    specialize (D Sub). lia.
Qed.

(** The addresses coupons were generated from. *)
Lemma distinct_generating_ip_run (db : DB) :
  ∃ ips : gset string,
    distinct_generating_ip db = (inr ips, db) ∧
    (∀ ip, ip ∈ ips ↔
           ∃ id c, coupons_collection db !! id = Some c ∧ generating_ip c = ip) ∧
    (size ips ≤ size (coupons_collection db))%nat.
Proof.
  eexists. split; [reflexivity|]. split.
  - intros ip. rewrite elem_of_list_to_set, list_elem_of_fmap. split.
    + intros ([id c] & -> & I). apply elem_of_map_to_list in I. eauto.
    + intros (id & c & L & <-). exists (id, c). split; [done|].
      by apply elem_of_map_to_list.
  - etrans; [apply size_list_to_set_le|].
    by rewrite length_fmap, length_map_to_list.
Qed.

Lemma count_where_negb (P : Coupon → bool) (m : gmap string Coupon) :
  count_where (λ c, negb (P c)) m = Z.of_nat (size m) - count_where P m.
Proof.
  unfold count_where. rewrite <- (length_map_to_list m).
  pose proof (filter_length (λ kv : string * Coupon, P kv.2) (map_to_list m)).
  simpl in *. lia.
Qed.

Lemma admin_stats_run (request : Request) (db : DB) (cfg : Config) :
  remote_addr request = MASTER_IP →
  config_collection db !! "coupon_limit" = Some cfg →
  ∃ ips : gset string,
    distinct_generating_ip db = (inr ips, db) ∧
    admin_stats MASTER_IP request db =
      (mkResponse 200
         (Json [("total_coupons_generated",
                 JInt (count_where (λ _, true) (coupons_collection db)));
                ("master_generated_coupons",
                 JInt (count_where generated_by_master (coupons_collection db)));
                ("user_generated_coupons",
                 JInt (count_where (λ _, true) (coupons_collection db)
                       - count_where generated_by_master (coupons_collection db)));
                ("used_coupons", JInt (count_where used (coupons_collection db)));
                ("unique_users", JInt (Z.of_nat (size ips)));
                ("current_limit", JInt (limit cfg));
                ("remaining_coupons", JInt (limit cfg - current_count cfg))])
         [], db).
Proof.
  intros E C. eexists. split; [reflexivity|].
  unfold admin_stats, admin_stats_body, distinct_generating_ip. run_M.
  rewrite bool_decide_eq_true_2 by done. simpl. by rewrite C.
Qed.

(** X11: [admin_stats] called from any address but [MASTER_IP] answers 403
    [{error: "Unauthorized"}]; called from [MASTER_IP] while the config
    document is missing it answers 500; in both cases, as in every other,
    it writes nothing. *)
Theorem admin_stats_refusals (request : Request) (db : DB) :
  (admin_stats MASTER_IP request db).2 = db ∧
  (remote_addr request ≠ MASTER_IP →
     (admin_stats MASTER_IP request db).1 =
       mkResponse 403 (Json [("error", JStr "Unauthorized")]) []) ∧
  (remote_addr request = MASTER_IP →
     config_collection db !! "coupon_limit" = None →
     (admin_stats MASTER_IP request db).1 =
       mkResponse 500
         (Json [("status", JStr "error"); ("message", JExc TypeError)]) []).
Proof.
  split; [apply admin_stats_db|].
  unfold admin_stats, admin_stats_body. run_M. split.
  - intros N. by rewrite bool_decide_eq_false_2.
  - intros E C. rewrite bool_decide_eq_true_2 by done. simpl. by rewrite C.
Qed.

(** X12: the figures [admin_stats] reports to [MASTER_IP]: the total is the
    number of stored coupons; the master and user figures split it, the
    user figure counting the coupons whose master flag is unset; the used
    figure and the number of distinct originating addresses are between 0
    and the total; the remaining figure is [limit - current_count]. *)
Theorem admin_stats_figures (request : Request) (db : DB) (cfg : Config) :
  remote_addr request = MASTER_IP →
  config_collection db !! "coupon_limit" = Some cfg →
  let r := (admin_stats MASTER_IP request db).1 in
  ∃ total master user used_n unique : Z,
    status r = 200 ∧
    json_int "total_coupons_generated" r = Some total ∧
    json_int "master_generated_coupons" r = Some master ∧
    json_int "user_generated_coupons" r = Some user ∧
    json_int "used_coupons" r = Some used_n ∧
    json_int "unique_users" r = Some unique ∧
    json_int "current_limit" r = Some (limit cfg) ∧
    json_int "remaining_coupons" r = Some (limit cfg - current_count cfg) ∧
    total = Z.of_nat (size (coupons_collection db)) ∧
    master = count_where generated_by_master (coupons_collection db) ∧
    user = count_where (λ c, negb (generated_by_master c)) (coupons_collection db) ∧
    used_n = count_where used (coupons_collection db) ∧
    master + user = total ∧
    0 <= master ∧ 0 <= user ∧
    0 <= used_n <= total ∧
    0 <= unique <= total ∧
    (unique = 0 ↔ total = 0).
Proof.
  intros E C r.
  destruct (distinct_generating_ip_run db) as (ips & D & I & B).
  destruct (admin_stats_run request db cfg E C) as (ips' & D' & R).
  assert (ips' = ips) as -> by congruence.
  subst r. rewrite R. simpl.
  pose proof (count_where_bounds generated_by_master (coupons_collection db)).
  pose proof (count_where_bounds used (coupons_collection db)).
  pose proof (count_where_bounds (λ c, negb (generated_by_master c))
                (coupons_collection db)).
  pose proof (count_where_negb generated_by_master (coupons_collection db)) as Ng.
  rewrite count_where_all.
  eexists _, _, _, _, _. repeat split; try reflexivity; try lia.
  intros U. assert (size ips = 0%nat) as U' by lia.
  apply size_empty_inv in U'.
  destruct (decide (size (coupons_collection db) = 0%nat)) as [Z0|NZ]; [lia|].
  exfalso. apply map_size_ne_0_lookup in NZ as [id [c L]].
  assert (generating_ip c ∈ ips) as In by (apply I; eauto).
  by apply U' in In.
Qed.

(** ** Resetting the quota *)

(** X13: [reset_limit] called from [MASTER_IP] with a body that is not JSON
    answers 500 and leaves the limit and the count as they were. *)
Theorem reset_limit_no_json (request : Request) (db : DB) :
  remote_addr request = MASTER_IP →
  json request = None →
  reset_limit MASTER_IP request db =
    (mkResponse 500
       (Json [("status", JStr "error"); ("message", JExc NoJsonBody)]) [], db).
Proof.
  intros E J. unfold reset_limit, reset_limit_body. run_M.
  rewrite bool_decide_eq_true_2 by done. simpl. by rewrite J.
Qed.


(** ** Statistics across calls *)

Lemma generate_coupon_cases (request : Request) (uuid4 : string)
    (now_expiry now_created : Z) (db : DB) :
  let result := generate_coupon MASTER_IP request uuid4 now_expiry now_created db in
  result.2 = db ∨ status result.1 = 200.
Proof.
  unfold generate_coupon, generate_coupon_body, can_generate_coupon. run_M.
  destruct (truthy _); simpl; [by left|].
  destruct (config_collection db !! "coupon_limit") as [cfg|]; simpl; [|by left].
  destruct (negb (current_count cfg <? limit cfg) && _); simpl; [by left|].
  destruct (coupons_collection db !! substring 0 8 uuid4); simpl; [by left|].
  right. by case_bool_decide.
Qed.

Lemma validate_coupon_success_inv (coupon_id : string) (now : Z) (db : DB) :
  json_member "valid" (validate_coupon coupon_id now db).1 = Some (JBool true) →
  ∃ c, coupons_collection db !! coupon_id = Some c ∧ used c = false ∧
       (validate_coupon coupon_id now db).2 =
         mkDB (<[coupon_id := set_used c]> (coupons_collection db))
              (config_collection db).
Proof.
  intros S.
  destruct (coupons_collection db !! coupon_id) as [c|] eqn:L.
  2:{ rewrite (validate_coupon_not_found _ _ _ L) in S. discriminate S. }
  destruct (used c) eqn:U.
  { rewrite (validate_coupon_already_used _ _ _ c L U) in S. discriminate S. }
  destruct (Z.gtb_spec now (expiry_date c)) as [G|G].
  { rewrite (validate_coupon_expired _ _ _ c L U) in S by lia. discriminate S. }
  exists c. by rewrite (validate_coupon_valid _ _ _ c L U G).
Qed.

(** X15: what a successful issuance does to the statistics [MASTER_IP] is
    shown: the total grows by one; the master figure grows by one exactly
    when the caller is [MASTER_IP], otherwise the user figure does and the
    remaining figure drops by one; the used figure and the limit stay. *)
Theorem issuance_in_stats (request admin : Request) (uuid4 : string)
    (now_expiry now_created : Z) (db : DB) :
  remote_addr admin = MASTER_IP →
  let result := generate_coupon MASTER_IP request uuid4 now_expiry now_created db in
  status result.1 = 200 →
  let before := (admin_stats MASTER_IP admin db).1 in
  let after := (admin_stats MASTER_IP admin result.2).1 in
  let by_master := if bool_decide (remote_addr request = MASTER_IP) then 1 else 0 in
  ∃ total master user used_n lim remaining : Z,
    json_int "total_coupons_generated" before = Some total ∧
    json_int "total_coupons_generated" after = Some (total + 1) ∧
    json_int "master_generated_coupons" before = Some master ∧
    json_int "master_generated_coupons" after = Some (master + by_master) ∧
    json_int "user_generated_coupons" before = Some user ∧
    json_int "user_generated_coupons" after = Some (user + (1 - by_master)) ∧
    json_int "used_coupons" before = Some used_n ∧
    json_int "used_coupons" after = Some used_n ∧
    json_int "current_limit" before = Some lim ∧
    json_int "current_limit" after = Some lim ∧
    json_int "remaining_coupons" before = Some remaining ∧
    json_int "remaining_coupons" after = Some (remaining - (1 - by_master)).
Proof.
  intros A result S before after by_master.
  destruct (generate_coupon_200 request uuid4 now_expiry now_created db S)
    as (_ & F & (cfg & C & _) & _ & EC & EG).
  fold result in EC, EG.
  set (cfg' := if bool_decide (remote_addr request = MASTER_IP)
               then cfg else inc_current_count cfg).
  assert (config_collection result.2 !! "coupon_limit" = Some cfg') as C'.
  { rewrite EG. subst cfg'. case_bool_decide; [done|].
    rewrite lookup_alter, decide_True by done. by rewrite C. }
  destruct (admin_stats_run admin db cfg A C) as (ips & _ & R).
  destruct (admin_stats_run admin result.2 cfg' A C') as (ips' & _ & R').
  subst before after. rewrite R, R', EC. simpl.
  rewrite !(count_where_insert_fresh _ _ _ _ F). simpl.
  eexists _, _, _, _, _, _.
  repeat split; try reflexivity; subst cfg' by_master;
    case_bool_decide; simpl; unfold json_int, json_member; cbn; f_equal; lia.
Qed.

(** X16: what a validation answering valid does to the statistics: the
    used figure grows by one, and the total, the master and user figures,
    the limit and the remaining figure stay. *)
Theorem validation_in_stats (admin : Request) (coupon_id : string) (now : Z)
    (db : DB) (cfg : Config) :
  remote_addr admin = MASTER_IP →
  config_collection db !! "coupon_limit" = Some cfg →
  let result := validate_coupon coupon_id now db in
  json_member "valid" result.1 = Some (JBool true) →
  let before := (admin_stats MASTER_IP admin db).1 in
  let after := (admin_stats MASTER_IP admin result.2).1 in
  ∃ total master user used_n : Z,
    json_int "total_coupons_generated" before = Some total ∧
    json_int "total_coupons_generated" after = Some total ∧
    json_int "master_generated_coupons" before = Some master ∧
    json_int "master_generated_coupons" after = Some master ∧
    json_int "user_generated_coupons" before = Some user ∧
    json_int "user_generated_coupons" after = Some user ∧
    json_int "used_coupons" before = Some used_n ∧
    json_int "used_coupons" after = Some (used_n + 1) ∧
    json_int "remaining_coupons" after = json_int "remaining_coupons" before.
Proof.
  intros A C result S before after.
  destruct (validate_coupon_success_inv coupon_id now db S) as (c & L & U & E).
  fold result in E.
  assert (config_collection result.2 !! "coupon_limit" = Some cfg) as C'
    by (by rewrite E).
  destruct (admin_stats_run admin db cfg A C) as (ips & _ & R).
  destruct (admin_stats_run admin result.2 cfg A C') as (ips' & _ & R').
  subst before after. rewrite R, R', E. simpl.
  rewrite !(count_where_insert_stored _ _ _ _ _ L). simpl. rewrite U.
  eexists _, _, _, _.
  repeat split; try reflexivity; unfold json_int, json_member; cbn; f_equal;
    destruct (generated_by_master c); lia.
Qed.

Lemma init_mongodb_fresh_config (db0 : DB) :
  config_collection db0 !! "coupon_limit" = None →
  config_collection (init_mongodb db0).2 !! "coupon_limit" = Some (mkConfig 150 0).
Proof.
  intros C. unfold init_mongodb, insert_one_config. run_M.
  rewrite C. simpl. rewrite C. simpl. apply lookup_insert_eq.
Qed.

(** X17: in a service started on an empty database, whatever calls were
    made, the config document is there and [current_count] is between 0
    and the number of stored coupons whose master flag is unset. *)
Theorem count_bounded_by_user_coupons (cs : list Call) (db0 : DB) :
  coupons_collection db0 = ∅ →
  config_collection db0 !! "coupon_limit" = None →
  let db := run MASTER_IP cs (init_mongodb db0).2 in
  ∃ cfg, config_collection db !! "coupon_limit" = Some cfg ∧
         0 <= current_count cfg
           <= count_where (λ c, negb (generated_by_master c)) (coupons_collection db).
Proof.
  intros E0 C0.
  set (Inv := λ db : DB,
         ∃ cfg, config_collection db !! "coupon_limit" = Some cfg ∧
                0 <= current_count cfg
                  <= count_where (λ c, negb (generated_by_master c))
                       (coupons_collection db)).
  assert (Inv (init_mongodb db0).2) as I0.
  { unfold Inv. exists (mkConfig 150 0).
    rewrite (init_mongodb_fresh_config db0 C0), init_mongodb_coupons, E0.
    split; [done|]. by vm_compute. }
  assert (∀ c db, Inv db → Inv (handle MASTER_IP c db).2) as Step.
  { intros call db (cfg & C & B). unfold Inv.
    destruct call as [|rq u n1 n2|cid now|rq|rq]; simpl.
    - rewrite test_db_db. by exists cfg.
    - destruct (generate_coupon_cases rq u n1 n2 db) as [->|S]; [by exists cfg|].
      destruct (generate_coupon_200 rq u n1 n2 db S)
        as (_ & F & _ & _ & EC & EG).
      rewrite EC, EG, (count_where_insert_fresh _ _ _ _ F). simpl.
      case_bool_decide; simpl.
      + exists cfg. split; [done|]. lia.
      + exists (inc_current_count cfg). split.
        * rewrite lookup_alter, decide_True by done. by rewrite C.
        * simpl. lia.
    - destruct (validate_coupon_coupons cid now db) as [EC|(c & L & U & EC)];
        rewrite EC, validate_coupon_config.
      + by exists cfg.
      + exists cfg. split; [done|].
        rewrite (count_where_insert_stored _ _ _ _ _ L). simpl. lia.
    - rewrite reset_limit_coupons.
      destruct (reset_limit_config MASTER_IP rq db) as [->|[n ->]]; [by exists cfg|].
      exists (mkConfig n 0). split.
      + rewrite lookup_alter, decide_True by done. by rewrite C.
      + simpl. lia.
    - rewrite admin_stats_db. by exists cfg. }
  intros db. subst db. generalize dependent (init_mongodb db0).2.
  induction cs as [|c cs IH]; intros db I; simpl; [done|].
  apply IH. by apply Step.
Qed.

(** ** The address predicate *)

Lemma run_keeps_ip (cs : list Call) (db : DB) (id : string) (c : Coupon) :
  coupons_collection db !! id = Some c →
  ∃ c', coupons_collection (run MASTER_IP cs db) !! id = Some c' ∧
        generating_ip c' = generating_ip c.
Proof.
  revert db c. induction cs as [|call cs IH]; intros db c L; simpl; [eauto|].
  destruct (handle_keeps_coupon MASTER_IP call db id c L) as [E|[_ E]];
    destruct (IH _ _ E) as (c' & L' & G); eauto.
Qed.

(** X18: [is_ip_allowed] reads only: it answers true exactly for
    [MASTER_IP] and for an address no stored coupon comes from.  So once an
    address other than [MASTER_IP] has been issued a coupon it answers
    false for that address, after whatever further calls. *)
Theorem is_ip_allowed_after_issuance (request : Request) (uuid4 : string)
    (now_expiry now_created : Z) (db : DB) (cs : list Call) :
  (∀ ip db1, ∃ b : bool,
     is_ip_allowed MASTER_IP ip db1 = (inr b, db1) ∧
     (b = true ↔
        ip = MASTER_IP ∨
        ¬ ∃ id c, coupons_collection db1 !! id = Some c ∧ generating_ip c = ip)) ∧
  (remote_addr request ≠ MASTER_IP →
   status (generate_coupon MASTER_IP request uuid4 now_expiry now_created db).1 = 200 →
   let db' := run MASTER_IP cs
                (generate_coupon MASTER_IP request uuid4 now_expiry now_created db).2 in
   is_ip_allowed MASTER_IP (remote_addr request) db' = (inr false, db')).
Proof.
  split; [intros ip db1; apply is_ip_allowed_spec|].
  intros N S db'.
  destruct (generate_coupon_200 request uuid4 now_expiry now_created db S)
    as (_ & _ & _ & _ & EC & _).
  assert (coupons_collection
            (generate_coupon MASTER_IP request uuid4 now_expiry now_created db).2
            !! substring 0 8 uuid4
          = Some (bson_coupon (coupon_data MASTER_IP request now_expiry now_created)))
    as L
    by (rewrite EC; apply lookup_insert_eq).
  destruct (run_keeps_ip cs _ _ _ L) as (c' & L' & G). fold db' in L'.
  destruct (is_ip_allowed_spec MASTER_IP (remote_addr request) db') as (b & R & B).
  rewrite R. destruct b; [|done].
  destruct B as [B _]. destruct (B eq_refl) as [?|A]; [done|].
  destruct A. eauto.
Qed.

End MoreProperties.

(** * The further properties at concrete requests *)

Lemma generate_coupon_limit_reached_witness :
  let request := plain_request "10.0.0.5" in
  truthy (cookies request !! "coupon_generated") = false ∧
  remote_addr request ≠ default_master_ip ∧
  config_collection db_limit_reached !! "coupon_limit" = Some (mkConfig 0 0) ∧
  current_count (mkConfig 0 0) >= limit (mkConfig 0 0) ∧
  generate_coupon default_master_ip request uuid_a 1000 1001 db_limit_reached =
    (mkResponse 403
       (Json [("error", JStr "Coupon generation not allowed");
              ("message", JStr "Coupon limit reached. Please try again later.")])
       [], db_limit_reached).
Proof.
  assert (remote_addr (plain_request "10.0.0.5") ≠ default_master_ip) as N
    by discriminate.
  assert (current_count (mkConfig 0 0) >= limit (mkConfig 0 0)) as Q
    by (vm_compute; discriminate).
  split; [reflexivity|]. split; [exact N|]. split; [reflexivity|].
  split; [exact Q|].
  exact (generate_coupon_limit_reached default_master_ip (plain_request "10.0.0.5")
           uuid_a 1000 1001 db_limit_reached (mkConfig 0 0) eq_refl N eq_refl Q).
Defined.

Lemma generate_coupon_duplicate_id_witness :
  let request := plain_request "10.0.0.9" in
  truthy (cookies request !! "coupon_generated") = false ∧
  config_collection db_one_coupon !! "coupon_limit" = Some (mkConfig 150 1) ∧
  current_count (mkConfig 150 1) < limit (mkConfig 150 1) ∧
  coupons_collection db_one_coupon !! substring 0 8 uuid_a = Some coupon_a ∧
  generate_coupon default_master_ip request uuid_a 2000 2001 db_one_coupon =
    (mkResponse 500
       (Json [("status", JStr "error");
              ("message", JExc (DuplicateKeyError "abcdef12"))])
       [], db_one_coupon).
Proof.
  assert (current_count (mkConfig 150 1) < limit (mkConfig 150 1)) as Q
    by reflexivity.
  split; [reflexivity|]. split; [reflexivity|]. split; [exact Q|].
  split; [reflexivity|].
  exact (generate_coupon_duplicate_id default_master_ip (plain_request "10.0.0.9")
           uuid_a 2000 2001 db_one_coupon (mkConfig 150 1) coupon_a
           eq_refl eq_refl (or_intror Q) eq_refl).
Defined.

Lemma generate_coupon_no_config_witness :
  let request := plain_request default_master_ip in
  truthy (cookies request !! "coupon_generated") = false ∧
  config_collection (mkDB ∅ ∅) !! "coupon_limit" = None ∧
  generate_coupon default_master_ip request uuid_a 1000 1001 (mkDB ∅ ∅) =
    (mkResponse 500
       (Json [("status", JStr "error"); ("message", JExc TypeError)]) [],
     mkDB ∅ ∅).
Proof.
  split; [reflexivity|]. split; [reflexivity|].
  exact (generate_coupon_no_config default_master_ip
           (plain_request default_master_ip) uuid_a 1000 1001 (mkDB ∅ ∅)
           eq_refl eq_refl).
Defined.

Lemma generate_coupon_cookie_blocks_witness :
  status (generate_coupon default_master_ip (plain_request "10.0.0.5")
            uuid_a 1000 1001 fresh_db).1 = 200 ∧
  generate_coupon default_master_ip (cookie_request default_master_ip "true")
    uuid_b 2000 2001 db_one_coupon =
    (mkResponse 403
       (Json [("error", JStr "Coupon generation not allowed");
              ("message", JStr "You have already generated a coupon. Only one coupon per device is allowed.")])
       [], db_one_coupon).
Proof.
  assert (status (generate_coupon default_master_ip (plain_request "10.0.0.5")
                    uuid_a 1000 1001 fresh_db).1 = 200) as S by reflexivity.
  split; [exact S|].
  apply (generate_coupon_cookie_blocks default_master_ip (plain_request "10.0.0.5")
           uuid_a 1000 1001 fresh_db S).
  intros ck I. apply list_elem_of_singleton in I. subst ck. reflexivity.
Defined.


Lemma forbidden_writes_nothing_witness :
  let call := ResetLimit (json_request "10.0.0.5" {[ "limit" := 500 ]}) in
  status (handle default_master_ip call db_one_coupon).1 = 403 ∧
  (handle default_master_ip call db_one_coupon).2 = db_one_coupon.
Proof.
  assert (status (handle default_master_ip
                    (ResetLimit (json_request "10.0.0.5" {[ "limit" := 500 ]}))
                    db_one_coupon).1 = 403) as S by reflexivity.
  split; [exact S|].
  exact (forbidden_writes_nothing default_master_ip _ db_one_coupon S).
Defined.

Lemma reachable_coupon_flags_witness :
  reachable default_master_ip db_one_coupon ∧
  coupons_collection db_one_coupon !! "abcdef12" = Some coupon_a ∧
  valid coupon_a = true ∧ discount coupon_a = "10%" ∧
  (generated_by_master coupon_a = true ↔ generating_ip coupon_a = default_master_ip).
Proof.
  split; [exact db_one_coupon_reachable|]. split; [reflexivity|].
  exact (reachable_coupon_flags default_master_ip db_one_coupon "abcdef12" coupon_a
           db_one_coupon_reachable eq_refl).
Defined.

Lemma issue_then_validate_witness :
  let result := generate_coupon default_master_ip (plain_request "10.0.0.5")
                  uuid_a 1500 1501 fresh_db in
  status result.1 = 200 ∧
  (validate_coupon "abcdef12" 86400001000 result.2).1 =
    mkResponse 200
      (Json [("valid", JBool true);
             ("message", JStr "Valid coupon - 10% discount applied at Swaad Station");
             ("discount", JStr "10%")])
      [] ∧
  validate_coupon "abcdef12" 86400001500 result.2 =
    (mkResponse 200
       (Json [("valid", JBool false); ("message", JStr "Coupon expired")])
       [], result.2).
Proof.
  assert (status (generate_coupon default_master_ip (plain_request "10.0.0.5")
                    uuid_a 1500 1501 fresh_db).1 = 200) as S by reflexivity.
  split; [exact S|].
  destruct (issue_then_validate default_master_ip (plain_request "10.0.0.5")
              uuid_a 1500 1501 fresh_db S) as (V & X & _ & _).
  split.
  - apply (V 86400001000). vm_compute. discriminate.
  - apply (X 86400001500). reflexivity.
Defined.

Lemma admin_stats_figures_witness :
  let admin := plain_request default_master_ip in
  let r := (admin_stats default_master_ip admin db_one_coupon).1 in
  remote_addr admin = default_master_ip ∧
  config_collection db_one_coupon !! "coupon_limit" = Some (mkConfig 150 1) ∧
  ∃ total master user used_n unique : Z,
    status r = 200 ∧
    json_int "total_coupons_generated" r = Some total ∧
    json_int "master_generated_coupons" r = Some master ∧
    json_int "user_generated_coupons" r = Some user ∧
    json_int "remaining_coupons" r = Some 149 ∧
    master + user = total ∧ 0 <= used_n <= total ∧ 0 <= unique <= total.
Proof.
  split; [reflexivity|]. split; [reflexivity|].
  destruct (admin_stats_figures default_master_ip (plain_request default_master_ip)
              db_one_coupon (mkConfig 150 1) eq_refl eq_refl)
    as (total & master & user & used_n & unique & A1 & A2 & A3 & A4 & _ & _ & _
        & A8 & _ & _ & _ & _ & A13 & _ & _ & A16 & A17 & _).
  exists total, master, user, used_n, unique.
  repeat split; try assumption; try apply A16; apply A17.
Defined.

Lemma reset_limit_no_json_witness :
  let request := plain_request default_master_ip in
  remote_addr request = default_master_ip ∧
  json request = None ∧
  reset_limit default_master_ip request db_one_coupon =
    (mkResponse 500
       (Json [("status", JStr "error"); ("message", JExc NoJsonBody)]) [],
     db_one_coupon).
Proof.
  split; [reflexivity|]. split; [reflexivity|].
  exact (reset_limit_no_json default_master_ip (plain_request default_master_ip)
           db_one_coupon eq_refl eq_refl).
Defined.


Lemma issuance_in_stats_witness :
  let admin := plain_request default_master_ip in
  let result := generate_coupon default_master_ip (plain_request "10.0.0.5")
                  uuid_a 1000 1001 fresh_db in
  remote_addr admin = default_master_ip ∧
  status result.1 = 200 ∧
  ∃ total remaining : Z,
    json_int "total_coupons_generated"
      (admin_stats default_master_ip admin fresh_db).1 = Some total ∧
    json_int "total_coupons_generated"
      (admin_stats default_master_ip admin result.2).1 = Some (total + 1) ∧
    json_int "remaining_coupons"
      (admin_stats default_master_ip admin fresh_db).1 = Some remaining ∧
    json_int "remaining_coupons"
      (admin_stats default_master_ip admin result.2).1 = Some (remaining - (1 - 0)).
Proof.
  assert (status (generate_coupon default_master_ip (plain_request "10.0.0.5")
                    uuid_a 1000 1001 fresh_db).1 = 200) as S by reflexivity.
  split; [reflexivity|]. split; [exact S|].
  destruct (issuance_in_stats default_master_ip (plain_request "10.0.0.5")
              (plain_request default_master_ip) uuid_a 1000 1001 fresh_db
              eq_refl S)
    as (total & master & user & used_n & lim & remaining
        & A1 & A2 & _ & _ & _ & _ & _ & _ & _ & _ & A11 & A12).
  exists total, remaining. repeat split; assumption.
Defined.

Lemma validation_in_stats_witness :
  let admin := plain_request default_master_ip in
  let result := validate_coupon "abcdef12" 5000 db_one_coupon in
  remote_addr admin = default_master_ip ∧
  config_collection db_one_coupon !! "coupon_limit" = Some (mkConfig 150 1) ∧
  json_member "valid" result.1 = Some (JBool true) ∧
  ∃ used_n : Z,
    json_int "used_coupons"
      (admin_stats default_master_ip admin db_one_coupon).1 = Some used_n ∧
    json_int "used_coupons"
      (admin_stats default_master_ip admin result.2).1 = Some (used_n + 1).
Proof.
  assert (json_member "valid" (validate_coupon "abcdef12" 5000 db_one_coupon).1
          = Some (JBool true)) as S by reflexivity.
  split; [reflexivity|]. split; [reflexivity|]. split; [exact S|].
  destruct (validation_in_stats default_master_ip (plain_request default_master_ip)
              "abcdef12" 5000 db_one_coupon (mkConfig 150 1) eq_refl eq_refl S)
    as (total & master & user & used_n & _ & _ & _ & _ & _ & _ & A7 & A8 & _).
  exists used_n. split; assumption.
Defined.

Lemma count_bounded_by_user_coupons_witness :
  let cs := [GenerateCoupon (plain_request "10.0.0.5") uuid_a 1000 1001;
             GenerateCoupon (plain_request default_master_ip) uuid_b 2000 2001] in
  let db := run default_master_ip cs (init_mongodb (mkDB ∅ ∅)).2 in
  coupons_collection (mkDB ∅ ∅) = ∅ ∧
  config_collection (mkDB ∅ ∅) !! "coupon_limit" = None ∧
  ∃ cfg, config_collection db !! "coupon_limit" = Some cfg ∧
         0 <= current_count cfg
           <= count_where (λ c, negb (generated_by_master c)) (coupons_collection db).
Proof.
  intros cs db.
  assert (config_collection (mkDB ∅ ∅) !! "coupon_limit" = None) as C
    by reflexivity.
  split; [reflexivity|]. split; [exact C|].
  exact (count_bounded_by_user_coupons default_master_ip cs (mkDB ∅ ∅) eq_refl C).
Defined.

Lemma is_ip_allowed_after_issuance_witness :
  let request := plain_request "10.0.0.5" in
  let db' := run default_master_ip [ValidateCoupon "abcdef12" 5000]
               (generate_coupon default_master_ip request uuid_a 1000 1001 fresh_db).2 in
  remote_addr request ≠ default_master_ip ∧
  status (generate_coupon default_master_ip request uuid_a 1000 1001 fresh_db).1 = 200 ∧
  is_ip_allowed default_master_ip "10.0.0.5" db' = (inr false, db').
Proof.
  assert (remote_addr (plain_request "10.0.0.5") ≠ default_master_ip) as N
    by discriminate.
  assert (status (generate_coupon default_master_ip (plain_request "10.0.0.5")
                    uuid_a 1000 1001 fresh_db).1 = 200) as S by reflexivity.
  split; [exact N|]. split; [exact S|].
  destruct (is_ip_allowed_after_issuance default_master_ip (plain_request "10.0.0.5")
              uuid_a 1000 1001 fresh_db [ValidateCoupon "abcdef12" 5000]) as [_ P].
  exact (P N S).
Defined.

Lemma test_db_spec_witness :
  (test_db db_one_coupon).1 =
    mkResponse 200
      (Json [("status", JStr "success");
             ("data", JObj [("limit", JInt 150); ("current_count", JInt 1)])])
      [] ∧
  (test_db (mkDB ∅ ∅)).1 =
    mkResponse 200
      (Json [("status", JStr "error"); ("message", JExc TypeError)]) [].
Proof.
  split.
  - destruct (test_db_spec db_one_coupon) as (_ & _ & A & _).
    exact (A (mkConfig 150 1) eq_refl).
  - destruct (test_db_spec (mkDB ∅ ∅)) as (_ & _ & _ & B).
    assert (config_collection (mkDB ∅ ∅) !! "coupon_limit" = None) as C
      by reflexivity.
    exact (B C).
Defined.

Lemma admin_stats_refusals_witness :
  (admin_stats default_master_ip (plain_request "10.0.0.5") db_one_coupon).1 =
    mkResponse 403 (Json [("error", JStr "Unauthorized")]) [] ∧
  (admin_stats default_master_ip (plain_request default_master_ip) (mkDB ∅ ∅)).1 =
    mkResponse 500
      (Json [("status", JStr "error"); ("message", JExc TypeError)]) [].
Proof.
  split.
  - destruct (admin_stats_refusals default_master_ip (plain_request "10.0.0.5")
                db_one_coupon) as (_ & A & _).
    apply A. discriminate.
  - destruct (admin_stats_refusals default_master_ip
                (plain_request default_master_ip) (mkDB ∅ ∅)) as (_ & _ & B).
    assert (config_collection (mkDB ∅ ∅) !! "coupon_limit" = None) as C
      by reflexivity.
    exact (B eq_refl C).
Defined.
